(** * Notebook variation pipeline (app.py): a shallow embedding and its properties

    The program loads a Jupyter notebook with [json.load], walks its cells,
    asks a remote completion service for a variation of every cell whose
    [cell_type] is one of eight recognised roles, and writes the notebook back
    with the [source] of those cells replaced.

    Python values are embedded as the tree [json.load] returns; Python [str]
    is a list of Unicode code points; exceptions are an explicit result type;
    the remote service and the file system are explicit state. *)

From Stdlib Require Import String Ascii DecimalString ZArith NArith Bool Lia List.
From Stdlib Require QArith_base.
Import ListNotations.

Local Open Scope list_scope.
Local Set Warnings "-register-all,-notation-for-abbreviation".

(* ------------------------------------------------------------------ *)
(** ** Python values *)
(* ------------------------------------------------------------------ *)

Module Py.

(** A Python [str]: a sequence of Unicode code points. *)
Definition str := list N.

(** A literal of the program text. *)
Definition lit (s : string) : str := map N_of_ascii (list_ascii_of_string s).

Fixpoint str_eqb (a b : str) : bool :=
  match a, b with
  | [], [] => true
  | x :: a', y :: b' => N.eqb x y && str_eqb a' b'
  | _, _ => false
  end.

(** The exceptions the program can meet. [OpenAIError] stands for the error
    classes of the openai package; [OtherException] stands for any exception
    outside the classes listed here. *)
Inductive exn :=
| KeyError
| TypeError
| IndexError
| AttributeError
| IOError
| OpenAIError
| OtherException (tag : nat).

Inductive result (A : Type) :=
| Ok (a : A)
| Raise (e : exn).
Arguments Ok {A} a.
Arguments Raise {A} e.

Definition bind {A B} (r : result A) (k : A -> result B) : result B :=
  match r with
  | Ok a => k a
  | Raise e => Raise e
  end.

(** The values [json.load] produces. A [dict] keeps insertion order and
    [json.dump] writes keys in that order, so it is an association list;
    a float is [m * 2^e]. *)
Inductive value :=
| PyNone
| PyBool (b : bool)
| PyInt (z : Z)
| PyFloat (m e : Z)
| PyStr (s : str)
| PyList (l : list value)
| PyDict (d : list (str * value)).

(** [d.get(k)]: the entry stored under [k]. *)
Fixpoint dict_get (d : list (str * value)) (k : str) : option value :=
  match d with
  | [] => None
  | (k', v) :: d' => if str_eqb k' k then Some v else dict_get d' k
  end.

(** [d[k] = v]: an existing key keeps its position, a new key goes last. *)
Fixpoint dict_set (d : list (str * value)) (k : str) (v : value)
  : list (str * value) :=
  match d with
  | [] => [(k, v)]
  | (k', v') :: d' =>
      if str_eqb k' k then (k', v) :: d' else (k', v') :: dict_set d' k v
  end.

(** [x[key]] with a [str] key: only a dict accepts it. *)
Definition subscript (x : value) (key : str) : result value :=
  match x with
  | PyDict d =>
      match dict_get d key with
      | Some v => Ok v
      | None => Raise KeyError
      end
  | _ => Raise TypeError
  end.

(** [x[key] = v] with a [str] key. *)
Definition setitem (x : value) (key : str) (v : value) : result value :=
  match x with
  | PyDict d => Ok (PyDict (dict_set d key v))
  | _ => Raise TypeError
  end.

(** Truth value of [x] in a condition. *)
Definition truthy (x : value) : bool :=
  match x with
  | PyNone => false
  | PyBool b => b
  | PyInt z => negb (Z.eqb z 0)
  | PyFloat m _ => negb (Z.eqb m 0)
  | PyStr s => match s with [] => false | _ => true end
  | PyList l => match l with [] => false | _ => true end
  | PyDict d => match d with [] => false | _ => true end
  end.

(** The elements [for e in x] visits: list items, the characters of a str,
    the keys of a dict; anything else is not iterable. *)
Definition iter (x : value) : result (list value) :=
  match x with
  | PyList l => Ok l
  | PyStr s => Ok (map (fun c => PyStr [c]) s)
  | PyDict d => Ok (map (fun kv => PyStr (fst kv)) d)
  | _ => Raise TypeError
  end.

(** [''.join(items)] over already iterated items: every item must be a str. *)
Fixpoint join_items (items : list value) : result str :=
  match items with
  | [] => Ok []
  | PyStr s :: rest => bind (join_items rest) (fun t => Ok (s ++ t))
  | _ :: _ => Raise TypeError
  end.

(** [''.join(x)] *)
Definition join (x : value) : result str :=
  bind (iter x) join_items.

(** Characters [str.strip()] removes (Python's Unicode white space). *)
Definition is_space (c : N) : bool :=
  ((9 <=? c) && (c <=? 13) || (28 <=? c) && (c <=? 32)
   || (c =? 133) || (c =? 160) || (c =? 5760)
   || (8192 <=? c) && (c <=? 8202)
   || (c =? 8232) || (c =? 8233) || (c =? 8239) || (c =? 8287)
   || (c =? 12288))%N.

Fixpoint lstrip (s : str) : str :=
  match s with
  | [] => []
  | c :: s' => if is_space c then lstrip s' else s
  end.

Definition rstrip (s : str) : str := rev (lstrip (rev s)).

(** [s.strip()] *)
Definition strip (s : str) : str := rstrip (lstrip s).

(** Line boundaries of [str.splitlines]: LF, VT, FF, CR, FS, GS, RS, NEL,
    LINE SEPARATOR, PARAGRAPH SEPARATOR. *)
Definition is_linebreak (c : N) : bool :=
  ((10 <=? c) && (c <=? 13) || (28 <=? c) && (c <=? 30)
   || (c =? 133) || (c =? 8232) || (c =? 8233))%N.

(** [s.splitlines(keepends=True)], with [line] the characters of the line
    being read. CR LF counts as one boundary. *)
Fixpoint splitlines_from (line : str) (s : str) : list str :=
  match s with
  | [] => match line with [] => [] | _ => [line] end
  | c :: rest =>
      if is_linebreak c then
        match rest with
        | c' :: rest' =>
            if (c =? 13)%N && (c' =? 10)%N
            then (line ++ [c; c']) :: splitlines_from [] rest'
            else (line ++ [c]) :: splitlines_from [] rest
        | [] => (line ++ [c]) :: splitlines_from [] rest
        end
      else splitlines_from (line ++ [c]) rest
  end.

Definition splitlines_keepends (s : str) : list str := splitlines_from [] s.

(** [str(b)] for a bool, [str(n)] for an int, as an f-string prints them. *)
Definition format_bool (b : bool) : str := lit (if b then "True" else "False").

Definition format_int (z : Z) : str := lit (NilZero.string_of_int (Z.to_int z)).

Definition format_optional_int (o : option Z) : str :=
  match o with
  | Some z => format_int z
  | None => lit "None"
  end.

End Py.

Import Py.

(* ------------------------------------------------------------------ *)
(** ** The remote completion service and the file system *)
(* ------------------------------------------------------------------ *)

(** The keyword arguments of [openai.completions.create]. *)
Record CompletionRequest := {
  model : str;
  prompt : str;
  max_tokens : Z;
  temperature : QArith_base.Q;
  n : Z;
  stop : option str
}.

Record Choice := { text : str }.

(** The response object of [openai.completions.create]: its attribute
    [choices] holds the list of candidates. *)
Record Completion := { choices : list Choice }.

(** [key in completion]. The response object is not a mapping and defines no
    membership test, so [in] walks the object's (field name, value) pairs and
    compares each pair with [key]; a pair never equals a str. *)
Definition completion_contains (completion : Completion) (key : str) : bool :=
  false.

(** [completion[key]]: the response object is not subscriptable. *)
Definition completion_getitem (completion : Completion) (key : str)
  : result (list Choice) :=
  Raise TypeError.

(** The attribute [openai.Error] the handler of
    [generate_variation_with_function_call] names: the package that offers
    [openai.completions.create] defines no such attribute, so looking it up
    raises [AttributeError]. A defined class would be given by its instance
    test. *)
Definition openai_Error : option (exn -> bool) := None.

Inductive outcome :=
| Returns (completion : Completion)
| Raises (e : exn).

(** The service is a black box: its answer to a request may depend on every
    request made before it. *)
Definition Remote := list CompletionRequest -> CompletionRequest -> outcome.

(** Computations that call the service: they thread the log of requests made
    so far, which survives an exception. *)
Definition Gen (A : Type) := list CompletionRequest -> result A * list CompletionRequest.

(** What a path holds: bytes [json.load] rejects, or the encoding of a value. *)
Inductive file :=
| Garbage
| Encoded (v : value).

(** The file system: what each path holds, the paths [open(path, 'w')]
    refuses, and the paths on which a write fails after the file was opened
    (and so truncated). *)
Record World := {
  files : list (str * file);
  unwritable : list str;
  faulty : list str
}.

Fixpoint lookup_file (fs : list (str * file)) (path : str) : option file :=
  match fs with
  | [] => None
  | (p, f) :: fs' => if str_eqb p path then Some f else lookup_file fs' path
  end.

Fixpoint store_file (fs : list (str * file)) (path : str) (f : file)
  : list (str * file) :=
  match fs with
  | [] => [(path, f)]
  | (p, g) :: fs' =>
      if str_eqb p path then (p, f) :: fs' else (p, g) :: store_file fs' path f
  end.

(** [with open(path, 'w') as f: json.dump(v, f, indent=4)], with the file
    system it leaves. When [open] fails nothing changes; when a write fails
    after [open] the path is left with a cut-off text, which [json.load]
    rejects; both raise [IOError]. *)
Definition dump_to (w : World) (path : str) (v : value)
  : result unit * World :=
  if existsb (str_eqb path) (unwritable w) then (Raise IOError, w)
  else if existsb (str_eqb path) (faulty w) then
    (Raise IOError,
     {| files := store_file (files w) path Garbage;
        unwritable := unwritable w; faulty := faulty w |})
  else
    (Ok tt,
     {| files := store_file (files w) path (Encoded v);
        unwritable := unwritable w; faulty := faulty w |}).

(* ------------------------------------------------------------------ *)
(** ** app.py *)
(* ------------------------------------------------------------------ *)

(** The list both [process_cells_with_function_call] and [save_variations]
    test [cell_type] against. *)
Definition recognized_roles : list str :=
  [lit "code"; lit "markdown"; lit "system"; lit "tools"; lit "user";
   lit "assistant"; lit "tool_use"; lit "tool_output"].

(** [x in [...]] compares with [==]: only a str equals one of the literals.
    The str is returned, since the prompt prints it. *)
Definition member_of_roles (x : value) : option str :=
  match x with
  | PyStr s => if existsb (str_eqb s) recognized_roles then Some s else None
  | _ => None
  end.

Definition in_roles (x : value) : bool :=
  match member_of_roles x with
  | Some _ => true
  | None => false
  end.

(** The dictionaries [process_cells_with_function_call] appends:
    [{'role': .., 'original': .., 'variation': ..}]. *)
Record VariationRecord := {
  role : value;
  original : str;
  variation : str
}.

Definition nl : str := [10%N].
Definition indent : str := lit "    ".

(** The f-string of [generate_variation_with_function_call]. *)
Definition build_prompt (message role language context : str)
  (preserve_structure include_documentation : bool)
  (target_audience : str) (length_constraint : option Z) : str :=
  nl ++ indent ++ lit "You are a helpful assistant that generates variations of messages while keeping their meaning and functionality the same. "
  ++ nl ++ indent ++ lit "Please vary the following " ++ role
  ++ lit " message while preserving its core elements, functionality, and including necessary documentation strings:"
  ++ nl ++ indent ++ message
  ++ nl ++ indent
  ++ nl ++ indent ++ lit "Context: " ++ context
  ++ nl ++ indent ++ lit "Programming Language: " ++ language
  ++ nl ++ indent ++ lit "Preserve Structure: " ++ format_bool preserve_structure
  ++ nl ++ indent ++ lit "Target Audience: " ++ target_audience
  ++ nl ++ indent ++ lit "Length Constraint: " ++ format_optional_int length_constraint
  ++ nl ++ indent ++ lit "Include Documentation: " ++ format_bool include_documentation
  ++ nl ++ indent.

Definition build_request (message role language context : str)
  (preserve_structure include_documentation : bool)
  (target_audience : str) (length_constraint : option Z) : CompletionRequest :=
  {| model := lit "gpt-4";
     prompt := build_prompt message role language context preserve_structure
                 include_documentation target_audience length_constraint;
     max_tokens := 150;
     temperature := QArith_base.Qmake 7 10;
     n := 1;
     stop := None |}.

(** [load_notebook]: a missing file ([FileNotFoundError]) and undecodable
    bytes ([json.JSONDecodeError]) both yield [None]. *)
Definition load_notebook (notebook_path : str) (w : World) : value :=
  match lookup_file (files w) notebook_path with
  | None => PyNone
  | Some Garbage => PyNone
  | Some (Encoded notebook) => notebook
  end.

(** [extract_cells]: [notebook['cells'] if notebook else []]. *)
Definition extract_cells (notebook : value) : result value :=
  if truthy notebook then subscript notebook (lit "cells") else Ok (PyList []).

(** The [for i, cell in enumerate(...)] loop of [save_variations], started at
    index [i]. Cells are mutated in place, so the loop yields the cells as
    they are when it stops, together with the exception that stopped it. *)
Fixpoint save_loop (variations : list VariationRecord) (i : nat)
  (cells : list value) : list value * option exn :=
  match cells with
  | [] => ([], None)
  | cell :: rest =>
      match subscript cell (lit "cell_type") with
      | Raise e => (cell :: rest, Some e)
      | Ok cell_type =>
          if in_roles cell_type then
            match nth_error variations i with
            | None => (cell :: rest, Some IndexError)
            | Some v =>
                match setitem cell (lit "source")
                        (PyList (map PyStr (splitlines_keepends (variation v)))) with
                | Raise e => (cell :: rest, Some e)
                | Ok cell' =>
                    let (rest', stopped) := save_loop variations (S i) rest in
                    (cell' :: rest', stopped)
                end
            end
          else
            let (rest', stopped) := save_loop variations (S i) rest in
            (cell :: rest', stopped)
      end
  end.

(** The notebook object after its cell list has been mutated to [cells]. *)
Definition with_cells (notebook : value) (cells : list value) : value :=
  match notebook with
  | PyDict d => PyDict (dict_set d (lit "cells") (PyList cells))
  | _ => notebook
  end.

(** [save_variations]. It returns, next to its result, the notebook object as
    the call leaves it and the file system. Only a list holds cells that can
    be mutated: iterating a str or a dict visits fresh strs. The handler for
    [IOError] only prints, so a failed [open] ends the call normally. *)
Definition save_variations (variations : list VariationRecord)
  (output_path : str) (original_notebook : value) (w : World)
  : result unit * value * World :=
  match subscript original_notebook (lit "cells") with
  | Raise e => (Raise e, original_notebook, w)
  | Ok cells =>
      match iter cells with
      | Raise e => (Raise e, original_notebook, w)
      | Ok items =>
          let (items', stopped) := save_loop variations 0 items in
          let notebook' :=
            match cells with
            | PyList _ => with_cells original_notebook items'
            | _ => original_notebook
            end in
          match stopped with
          | Some e => (Raise e, notebook', w)
          | None =>
              match dump_to w output_path notebook' with
              | (Ok _, w') => (Ok tt, notebook', w')
              | (Raise IOError, w') => (Ok tt, notebook', w')
              | (Raise e, w') => (Raise e, notebook', w')
              end
          end
      end
  end.

Section App.

Variable respond : Remote.

(** [generate_variation_with_function_call]. The defaults
    [target_audience="general"] and [length_constraint=None] are for callers
    that leave them out; the one caller passes both. [attempt] is the body
    of the [try]; an exception leaving it reaches [except openai.Error],
    whose class expression is looked up first. The [print] in the handler
    goes to standard output, which is not modelled. *)
Definition generate_variation_with_function_call
  (message role language context : str)
  (preserve_structure include_documentation : bool)
  (target_audience : str) (length_constraint : option Z) : Gen str :=
  fun calls =>
    let request := build_request message role language context
                     preserve_structure include_documentation
                     target_audience length_constraint in
    let calls' := calls ++ [request] in
    let attempt : result str :=
      match respond calls request with
      | Raises e => Raise e
      | Returns completion =>
          if completion_contains completion (lit "choices") then
            bind (completion_getitem completion (lit "choices"))
              (fun listed =>
                 if (0 <? length listed)%nat then
                   match choices completion with
                   | first :: _ => Ok (strip (text first))
                   | [] => Raise IndexError
                   end
                 else Ok message)
          else Ok message
      end in
    match attempt with
    | Ok s => (Ok s, calls')
    | Raise e =>
        match openai_Error with
        | None => (Raise AttributeError, calls')
        | Some is_instance =>
            if is_instance e then (Ok message, calls') else (Raise e, calls')
        end
    end.

(** The body of the [for cell in cells] loop of
    [process_cells_with_function_call]; [varied_cells] is the list built so
    far. *)
Definition process_cell (cell : value) (varied_cells : list VariationRecord)
  : Gen (list VariationRecord) :=
  fun calls =>
    match subscript cell (lit "cell_type") with
    | Raise e => (Raise e, calls)
    | Ok role =>
        match bind (subscript cell (lit "source")) join with
        | Raise e => (Raise e, calls)
        | Ok source =>
            match member_of_roles role with
            | Some r =>
                match generate_variation_with_function_call source r
                        (lit "python") (lit "This is part of a Jupyter notebook.")
                        true true (lit "general") (Some 150%Z) calls with
                | (Ok variation, calls') =>
                    (Ok (varied_cells ++
                         [{| role := role; original := source;
                             variation := variation |}]), calls')
                | (Raise e, calls') => (Raise e, calls')
                end
            | None =>
                (Ok (varied_cells ++
                     [{| role := role; original := source;
                         variation := source |}]), calls)
            end
        end
    end.

Fixpoint process_loop (cells : list value) (varied_cells : list VariationRecord)
  : Gen (list VariationRecord) :=
  fun calls =>
    match cells with
    | [] => (Ok varied_cells, calls)
    | cell :: rest =>
        match process_cell cell varied_cells calls with
        | (Ok varied_cells', calls') => process_loop rest varied_cells' calls'
        | (Raise e, calls') => (Raise e, calls')
        end
    end.

(** [process_cells_with_function_call] *)
Definition process_cells_with_function_call (cells : value)
  : Gen (list VariationRecord) :=
  fun calls =>
    match iter cells with
    | Raise e => (Raise e, calls)
    | Ok items => process_loop items [] calls
    end.

Definition input_path : str := lit "notebook/Sample1.ipynb".
Definition output_path : str := lit "varied/notebook.json".

(** [main_with_function_call]: the result of the run, the file system and
    the log of requests it leaves. *)
Definition main_with_function_call (w : World) (calls : list CompletionRequest)
  : result unit * World * list CompletionRequest :=
  let notebook := load_notebook input_path w in
  match extract_cells notebook with
  | Raise e => (Raise e, w, calls)
  | Ok cells =>
      match process_cells_with_function_call cells calls with
      | (Raise e, calls') => (Raise e, w, calls')
      | (Ok variations, calls') =>
          match save_variations variations output_path notebook w with
          | (r, _, w') => (r, w', calls')
          end
      end
  end.

End App.

(* ------------------------------------------------------------------ *)
(** ** Predicates used in the statements *)
(* ------------------------------------------------------------------ *)

(** A cell the processing loop can read: a dict with a [cell_type] and a
    [source] that [''.join] accepts. *)
Definition is_block (cell : value) : bool :=
  match subscript cell (lit "cell_type"),
        bind (subscript cell (lit "source")) join with
  | Ok _, Ok _ => true
  | _, _ => false
  end.

(** A cell the rebuilding loop can classify. *)
Definition has_cell_type (cell : value) : bool :=
  match subscript cell (lit "cell_type") with
  | Ok _ => true
  | Raise _ => false
  end.

(** The cell's [cell_type] is one of the recognised roles. *)
Definition cell_in_roles (cell : value) : bool :=
  match subscript cell (lit "cell_type") with
  | Ok cell_type => in_roles cell_type
  | Raise _ => false
  end.

(** The record [v] carries the role and the text of [cell]. *)
Definition reads (cell : value) (v : VariationRecord) : Prop :=
  subscript cell (lit "cell_type") = Ok (role v) /\
  bind (subscript cell (lit "source")) join = Ok (original v).

(** The service answers every request: no call raises. *)
Definition always_answers (respond : Remote) : Prop :=
  forall calls request, exists completion,
    respond calls request = Returns completion.

(** The request the processing loop sends for a block of text [source] and
    role [r]. *)
Definition request_for (source r : str) : CompletionRequest :=
  build_request source r (lit "python")
    (lit "This is part of a Jupyter notebook.") true true (lit "general")
    (Some 150%Z).


(** The text of a cell, as the processing loop reads it:
    [''.join(cell['source'])]. *)
Definition cell_text (cell : value) : result str :=
  bind (subscript cell (lit "source")) join.

(** The requests a pass over [cells] sends: one for each cell whose role is
    recognised, in the order of the cells. *)
Fixpoint requests_of (cells : list value) : list CompletionRequest :=
  match cells with
  | [] => []
  | cell :: rest =>
      match subscript cell (lit "cell_type"), cell_text cell with
      | Ok t, Ok source =>
          match member_of_roles t with
          | Some r => request_for source r :: requests_of rest
          | None => requests_of rest
          end
      | _, _ => requests_of rest
      end
  end.





(* ------------------------------------------------------------------ *)
(** ** Sample data *)
(* ------------------------------------------------------------------ *)

Module Sample.

Definition cell (cell_type : string) (fragments : list string) : value :=
  PyDict [(lit "cell_type", PyStr (lit cell_type));
          (lit "metadata", PyDict []);
          (lit "source", PyList (map (fun f => PyStr (lit f)) fragments))].

Definition code_cell : value := cell "code" ["print(1)"%string].
Definition markdown_cell : value := cell "markdown" ["# Title"%string].
Definition raw_cell : value := cell "raw" ["unchanged"%string].

Definition notebook_of (cells : list value) : list (str * value) :=
  [(lit "cells", PyList cells);
   (lit "metadata", PyDict [(lit "language", PyStr (lit "python"))]);
   (lit "nbformat", PyInt 4)].

Definition notebook : value :=
  PyDict (notebook_of [code_cell; markdown_cell; raw_cell]).

(** A document object that has fields but no cells. *)
Definition cellless : list (str * value) := [(lit "nbformat", PyInt 4)].

Definition world_with (nb : value) : World :=
  {| files := [(input_path, Encoded nb)]; unwritable := []; faulty := [] |}.

Definition empty_world : World :=
  {| files := []; unwritable := []; faulty := [] |}.

Definition answer (s : string) : outcome :=
  Returns {| choices := [{| text := lit s |}] |}.

(** The first call answers the code block, the second the markdown block. *)
Definition scripted : Remote :=
  fun calls _ =>
    match length calls with
    | 0 => answer "print(2)  "
    | 1 => answer "## Title"
    | _ => Returns {| choices := [] |}
    end.

(** The service is down. *)
Definition failing : Remote := fun _ _ => Raises OpenAIError.

Definition record (r original variation : string) : VariationRecord :=
  {| role := PyStr (lit r); original := lit original;
     variation := lit variation |}.

Definition no_records : list VariationRecord := [].

Definition two_records : list VariationRecord :=
  [record "code" "print(1)" "print(2)"; record "markdown" "# Title" "## Title"].

(** The run of the processing loop over the sample notebook with the
    scripted service, and the rebuilding that follows it. *)
Definition cells : list value := [code_cell; markdown_cell; raw_cell].

Definition records : list VariationRecord :=
  match fst (process_cells_with_function_call scripted (PyList cells) []) with
  | Ok vs => vs
  | Raise _ => []
  end.

Definition log : list CompletionRequest :=
  snd (process_cells_with_function_call scripted (PyList cells) []).

Definition rebuilt : value :=
  snd (fst (save_variations records output_path notebook empty_world)).

Definition written : World :=
  snd (save_variations records output_path notebook empty_world).

(** A service call interrupted by an exception from outside the package. *)
Definition interrupted : Remote := fun _ _ => Raises (OtherException 0).

(** A cell without a [cell_type]. *)
Definition untyped_cell : value := PyDict [(lit "source", PyList [])].

(** A file system whose output path cannot be opened for writing. *)
Definition locked_world : World :=
  {| files := [(input_path, Encoded notebook)]; unwritable := [output_path];
     faulty := [] |}.

(** The whole run over the sample notebook with the scripted service. *)
Definition ran : result unit * World * list CompletionRequest :=
  main_with_function_call scripted (world_with notebook) [].

(** One variation for three cells: the rebuilding stops at the second. *)
Definition one_record : list VariationRecord :=
  [record "code" "print(1)" "print(2)"].

Definition partly_rebuilt : value :=
  snd (fst (save_variations one_record output_path notebook empty_world)).

End Sample.

(* ------------------------------------------------------------------ *)
(** ** Facts about the Python primitives *)
(* ------------------------------------------------------------------ *)

Section PyFacts.

Lemma str_eqb_eq (a b : str) : str_eqb a b = true <-> a = b.
Proof.
  revert b; induction a as [|x a IH]; intros [|y b]; simpl; split;
    try discriminate; try reflexivity.
  - intros H. apply andb_true_iff in H as [Hx Hab].
    apply N.eqb_eq in Hx. apply IH in Hab. now subst.
  - intros H. injection H as -> ->.
    apply andb_true_iff. split; [apply N.eqb_refl | now apply IH].
Qed.

Lemma str_eqb_refl (a : str) : str_eqb a a = true.
Proof. now apply str_eqb_eq. Qed.

Lemma str_eqb_neq (a b : str) : a <> b -> str_eqb a b = false.
Proof.
  intros H. destruct (str_eqb a b) eqn:E; [|reflexivity].
  apply str_eqb_eq in E. contradiction.
Qed.

Lemma dict_get_set (d : list (str * value)) (k k' : str) (v : value) :
  dict_get (dict_set d k v) k' =
  if str_eqb k k' then Some v else dict_get d k'.
Proof.
  induction d as [|[k0 v0] d IH]; simpl.
  - reflexivity.
  - destruct (str_eqb k0 k) eqn:E0; simpl.
    + apply str_eqb_eq in E0. subst k0.
      now destruct (str_eqb k k').
    + rewrite IH.
      destruct (str_eqb k0 k') eqn:E1; [|reflexivity].
      destruct (str_eqb k k') eqn:E2; [|reflexivity].
      apply str_eqb_eq in E1, E2. subst.
      now rewrite str_eqb_refl in E0.
Qed.

Lemma subscript_setitem_other (x x' : value) (k k' : str) (v : value) :
  setitem x k v = Ok x' -> k' <> k -> subscript x' k' = subscript x k'.
Proof.
  destruct x; simpl; try discriminate.
  intros H Hk. injection H as <-. simpl.
  rewrite dict_get_set, str_eqb_neq; [reflexivity | congruence].
Qed.

Lemma subscript_setitem_same (x x' : value) (k : str) (v : value) :
  setitem x k v = Ok x' -> subscript x' k = Ok v.
Proof.
  destruct x; simpl; try discriminate.
  intros H. injection H as <-. simpl.
  now rewrite dict_get_set, str_eqb_refl.
Qed.

Lemma subscript_ok_setitem (x y : value) (k k' : str) (v : value) :
  subscript x k = Ok y -> exists x', setitem x k' v = Ok x'.
Proof.
  destruct x; simpl; try discriminate. intros _. eauto.
Qed.

Lemma join_items_strs (l : list str) :
  join_items (map PyStr l) = Ok (concat l).
Proof.
  induction l as [|s l IH]; simpl; [reflexivity|]. now rewrite IH.
Qed.

(** The fragments of [splitlines] put end to end give the text back. *)
Lemma concat_splitlines_from (s line : str) :
  concat (splitlines_from line s) = line ++ s.
Proof.
  remember (length s) as k eqn:Hk.
  revert s line Hk.
  induction k as [k IH] using lt_wf_ind. intros s line Hk.
  destruct s as [|c rest]; simpl.
  - destruct line; simpl; now rewrite ?app_nil_r.
  - simpl in Hk. destruct (is_linebreak c).
    + destruct rest as [|c' rest']; cbv beta iota.
      * simpl. now rewrite app_nil_r.
      * destruct ((c =? 13)%N && (c' =? 10)%N); rewrite concat_cons.
        -- rewrite (IH (length rest')); [|simpl in Hk; lia|reflexivity].
           simpl. now rewrite <- app_assoc.
        -- rewrite (IH (length (c' :: rest'))); [|lia|reflexivity].
           simpl. now rewrite <- app_assoc.
    + rewrite (IH (length rest)); [|lia|reflexivity].
      now rewrite <- app_assoc.
Qed.

Lemma concat_splitlines (s : str) : concat (splitlines_keepends s) = s.
Proof. apply concat_splitlines_from. Qed.




Lemma lstrip_split (s : str) :
  exists l, s = l ++ lstrip s /\ forallb is_space l = true.
Proof.
  induction s as [|c s [l [Hs Hl]]]; simpl.
  - now exists [].
  - destruct (is_space c) eqn:Hc.
    + exists (c :: l). simpl. now rewrite Hc, Hl, <- Hs.
    + now exists [].
Qed.

Lemma lstrip_head (s : str) :
  match lstrip s with
  | [] => True
  | c :: _ => is_space c = false
  end.
Proof.
  induction s as [|c s IH]; simpl; [exact I|].
  destruct (is_space c) eqn:Hc; [exact IH | exact Hc].
Qed.

(** [strip] removes a run of white space at each end, and nothing else; what
    is left neither starts nor ends with white space. *)
Lemma strip_spec (s : str) :
  exists l r,
    s = l ++ strip s ++ r /\
    forallb is_space l = true /\ forallb is_space r = true /\
    match strip s with
    | [] => True
    | c :: _ => is_space c = false
    end /\
    match rev (strip s) with
    | [] => True
    | c :: _ => is_space c = false
    end.
Proof.
  unfold strip, rstrip.
  destruct (lstrip_split s) as [l [Hs Hl]].
  destruct (lstrip_split (rev (lstrip s))) as [r [Hr Hrs]].
  pose proof (lstrip_head s) as Hhead.
  pose proof (lstrip_head (rev (lstrip s))) as Hlast.
  set (m := lstrip s) in *. set (t := lstrip (rev m)) in *.
  assert (Hm : m = rev t ++ rev r).
  { rewrite <- rev_app_distr, <- Hr. now rewrite rev_involutive. }
  exists l, (rev r). repeat split.
  - now rewrite <- Hm.
  - assumption.
  - rewrite forallb_forall in *. intros x Hx. apply Hrs. now apply in_rev.
  - destruct (rev t) as [|c u] eqn:Et; [exact I|].
    rewrite Hm in Hhead. simpl in Hhead. exact Hhead.
  - rewrite rev_involutive. exact Hlast.
Qed.








End PyFacts.

(* ------------------------------------------------------------------ *)
(** ** Facts about the processing loop *)
(* ------------------------------------------------------------------ *)

Section ProcessFacts.

Variable respond : Remote.

Local Notation generate := (generate_variation_with_function_call respond).
Local Notation process := (process_cells_with_function_call respond).


Lemma not_in_roles_member (t : value) :
  in_roles t = false -> member_of_roles t = None.
Proof.
  unfold in_roles. now destruct (member_of_roles t).
Qed.

Lemma generate_logs (message r language context : str) (ps doc : bool)
  (audience : str) (limit : option Z) (calls : list CompletionRequest) :
  snd (generate message r language context ps doc audience limit calls) =
  calls ++ [build_request message r language context ps doc audience limit].
Proof.
  unfold generate_variation_with_function_call.
  destruct (respond calls _) as [completion|e]; reflexivity.
Qed.

(** Whatever the response holds, the membership test fails and the message
    comes back. *)
Lemma generate_answered (message r language context : str) (ps doc : bool)
  (audience : str) (limit : option Z) (calls : list CompletionRequest)
  (completion : Completion) :
  respond calls
    (build_request message r language context ps doc audience limit)
    = Returns completion ->
  generate message r language context ps doc audience limit calls =
  (Ok message,
   calls ++ [build_request message r language context ps doc audience limit]).
Proof.
  intros Hr. unfold generate_variation_with_function_call. now rewrite Hr.
Qed.

(** Whatever the call raises, the handler's class lookup fails. *)
Lemma generate_raised (message r language context : str) (ps doc : bool)
  (audience : str) (limit : option Z) (calls : list CompletionRequest)
  (e : exn) :
  respond calls
    (build_request message r language context ps doc audience limit)
    = Raises e ->
  generate message r language context ps doc audience limit calls =
  (Raise AttributeError,
   calls ++ [build_request message r language context ps doc audience limit]).
Proof.
  intros Hr. unfold generate_variation_with_function_call. now rewrite Hr.
Qed.

Lemma generate_returns (message r language context : str) (ps doc : bool)
  (audience : str) (limit : option Z) (calls : list CompletionRequest) :
  always_answers respond ->
  generate message r language context ps doc audience limit calls =
  (Ok message,
   calls ++ [build_request message r language context ps doc audience limit]).
Proof.
  intros Hc.
  destruct (Hc calls
              (build_request message r language context ps doc audience limit))
    as [completion Hr].
  exact (generate_answered _ _ _ _ _ _ _ _ _ _ Hr).
Qed.

(** What comes back from a call that returns is the message. *)
Lemma generate_result (message r language context : str) (ps doc : bool)
  (audience : str) (limit : option Z) (calls calls' : list CompletionRequest)
  (t : str) :
  generate message r language context ps doc audience limit calls =
    (Ok t, calls') ->
  t = message.
Proof.
  unfold generate_variation_with_function_call.
  destruct (respond calls _) as [completion|e]; simpl; intros H.
  - now injection H as <- _.
  - discriminate.
Qed.

(** The record of a block is appended to the records built so far, whatever
    these are. *)
Lemma process_cell_acc (cell : value) (acc : list VariationRecord)
  (calls : list CompletionRequest) :
  process_cell respond cell acc calls =
  match process_cell respond cell [] calls with
  | (Ok vs, calls') => (Ok (acc ++ vs), calls')
  | (Raise e, calls') => (Raise e, calls')
  end.
Proof.
  unfold process_cell.
  destruct (subscript cell (lit "cell_type")) as [t|e]; [|reflexivity].
  destruct (bind (subscript cell (lit "source")) join) as [src|e];
    [|reflexivity].
  destruct (member_of_roles t) as [r|]; [|reflexivity].
  destruct (generate _ _ _ _ _ _ _ _ calls) as [[v|e] calls']; reflexivity.
Qed.

(** What one pass of the loop body yields. *)
Lemma process_cell_one (cell : value) (calls calls' : list CompletionRequest)
  (vs : list VariationRecord) :
  process_cell respond cell [] calls = (Ok vs, calls') ->
  exists v,
    vs = [v] /\
    subscript cell (lit "cell_type") = Ok (role v) /\
    bind (subscript cell (lit "source")) join = Ok (original v) /\
    match member_of_roles (role v) with
    | Some r =>
        generate (original v) r (lit "python")
          (lit "This is part of a Jupyter notebook.") true true
          (lit "general") (Some 150%Z) calls = (Ok (variation v), calls')
    | None => variation v = original v /\ calls' = calls
    end.
Proof.
  unfold process_cell.
  destruct (subscript cell (lit "cell_type")) as [t|e]; [|discriminate].
  destruct (bind (subscript cell (lit "source")) join) as [src|e];
    [|discriminate].
  destruct (member_of_roles t) as [r|] eqn:Et.
  - destruct (generate _ _ _ _ _ _ _ _ calls) as [[v|e] c] eqn:Eg;
      [|discriminate].
    intros H. injection H as <- <-.
    eexists. split; [reflexivity|]. simpl. rewrite Et. auto.
  - intros H. injection H as <- <-.
    eexists. split; [reflexivity|]. simpl. rewrite Et. auto.
Qed.

Lemma process_cell_returns (cell : value) (calls : list CompletionRequest) :
  always_answers respond ->
  is_block cell = true ->
  exists v calls', process_cell respond cell [] calls = (Ok [v], calls').
Proof.
  intros Hc Hb. unfold is_block in Hb. unfold process_cell.
  destruct (subscript cell (lit "cell_type")) as [t|e]; [|discriminate].
  destruct (bind (subscript cell (lit "source")) join) as [src|e];
    [|discriminate].
  destruct (member_of_roles t) as [r|]; [|simpl; eauto].
  rewrite (generate_returns src r (lit "python")
             (lit "This is part of a Jupyter notebook.") true true
             (lit "general") (Some 150%Z) calls Hc).
  simpl. eauto.
Qed.

Lemma process_loop_acc (cells : list value) (acc : list VariationRecord)
  (calls : list CompletionRequest) :
  process_loop respond cells acc calls =
  match process_loop respond cells [] calls with
  | (Ok vs, calls') => (Ok (acc ++ vs), calls')
  | (Raise e, calls') => (Raise e, calls')
  end.
Proof.
  revert acc calls. induction cells as [|cell rest IH]; intros acc calls; simpl.
  - now rewrite app_nil_r.
  - rewrite (process_cell_acc cell acc).
    destruct (process_cell respond cell [] calls) as [[vs|e] c]; [|reflexivity].
    rewrite (IH (acc ++ vs)), (IH vs).
    destruct (process_loop respond rest [] c) as [[ws|e] c']; [|reflexivity].
    now rewrite app_assoc.
Qed.

(** Processing a sequence is processing its front part, then its back part
    from the log the front part left. *)
Lemma process_loop_app (xs ys : list value) (calls : list CompletionRequest) :
  process_loop respond (xs ++ ys) [] calls =
  match process_loop respond xs [] calls with
  | (Ok vs, calls1) =>
      match process_loop respond ys [] calls1 with
      | (Ok ws, calls2) => (Ok (vs ++ ws), calls2)
      | (Raise e, calls2) => (Raise e, calls2)
      end
  | (Raise e, calls1) => (Raise e, calls1)
  end.
Proof.
  revert calls. induction xs as [|cell rest IH]; intros calls; simpl.
  - now destruct (process_loop respond ys [] calls) as [[ws|e] c].
  - destruct (process_cell respond cell [] calls) as [[vs|e] c]; [|reflexivity].
    rewrite (process_loop_acc (rest ++ ys) vs), (process_loop_acc rest vs), IH.
    destruct (process_loop respond rest [] c) as [[us|e] c1]; [|reflexivity].
    destruct (process_loop respond ys [] c1) as [[ws|e] c2]; [|reflexivity].
    now rewrite app_assoc.
Qed.

Lemma process_loop_cons (cell : value) (rest : list value)
  (calls : list CompletionRequest) :
  process_loop respond (cell :: rest) [] calls =
  match process_cell respond cell [] calls with
  | (Ok vs, calls1) =>
      match process_loop respond rest [] calls1 with
      | (Ok ws, calls2) => (Ok (vs ++ ws), calls2)
      | (Raise e, calls2) => (Raise e, calls2)
      end
  | (Raise e, calls1) => (Raise e, calls1)
  end.
Proof.
  simpl.
  destruct (process_cell respond cell [] calls) as [[vs|e] c]; [|reflexivity].
  apply process_loop_acc.
Qed.

Lemma process_loop_reads (cells : list value) (calls calls' : list CompletionRequest)
  (vs : list VariationRecord) :
  process_loop respond cells [] calls = (Ok vs, calls') ->
  Forall2 reads cells vs.
Proof.
  revert calls vs. induction cells as [|cell rest IH]; intros calls vs.
  - simpl. intros H. injection H as <- _. constructor.
  - rewrite process_loop_cons.
    destruct (process_cell respond cell [] calls) as [[us|e] c] eqn:Ec;
      [|discriminate].
    destruct (process_loop respond rest [] c) as [[ws|e] c2] eqn:Er;
      [|discriminate].
    intros H. injection H as <- <-.
    destruct (process_cell_one _ _ _ _ Ec) as [v [-> [Ht [Hs _]]]].
    simpl. constructor; [now split | eapply IH; eassumption].
Qed.

Lemma process_loop_returns (cells : list value) (calls : list CompletionRequest) :
  always_answers respond ->
  forallb is_block cells = true ->
  exists vs calls', process_loop respond cells [] calls = (Ok vs, calls').
Proof.
  intros Hc. revert calls.
  induction cells as [|cell rest IH]; intros calls Hb; simpl in Hb.
  - simpl. eauto.
  - apply andb_true_iff in Hb as [Hcell Hrest].
    rewrite process_loop_cons.
    destruct (process_cell_returns cell calls Hc Hcell) as [v [c ->]].
    destruct (IH c Hrest) as [ws [c2 ->]]. eauto.
Qed.

(** The block in the middle of a processed sequence was handled by one pass
    of the loop body, and its record sits at the block's index. *)
Lemma process_loop_split (pre post : list value) (cell : value)
  (calls calls' : list CompletionRequest) (vs : list VariationRecord) :
  process_loop respond (pre ++ cell :: post) [] calls = (Ok vs, calls') ->
  exists us v ws calls1 calls2,
    process_loop respond pre [] calls = (Ok us, calls1) /\
    process_cell respond cell [] calls1 = (Ok [v], calls2) /\
    process_loop respond post [] calls2 = (Ok ws, calls') /\
    vs = us ++ v :: ws /\ length us = length pre.
Proof.
  rewrite process_loop_app.
  destruct (process_loop respond pre [] calls) as [[us|e] c1] eqn:Epre;
    [|discriminate].
  rewrite process_loop_cons.
  destruct (process_cell respond cell [] c1) as [[xs|e] c2] eqn:Ecell;
    [|discriminate].
  destruct (process_loop respond post [] c2) as [[ws|e] c3] eqn:Epost;
    [|discriminate].
  intros H. injection H as <- <-.
  destruct (process_cell_one _ _ _ _ Ecell) as [v [-> _]].
  exists us, v, ws, c1, c2. repeat split; try assumption.
  symmetry. exact (Forall2_length (process_loop_reads _ _ _ _ Epre)).
Qed.

(** On a sequence of blocks, with a service that keeps to its interface, the
    processing returns, and its records are in step with the blocks. *)
Lemma process_blocks_returns (cells : list value)
  (calls : list CompletionRequest) :
  always_answers respond ->
  forallb is_block cells = true ->
  exists vs calls',
    process (PyList cells) calls = (Ok vs, calls') /\ Forall2 reads cells vs.
Proof.
  intros Hc Hb. unfold process_cells_with_function_call. simpl iter.
  destruct (process_loop_returns cells calls Hc Hb) as [vs [c Hvs]].
  exists vs, c. split; [assumption|].
  exact (process_loop_reads _ _ _ _ Hvs).
Qed.

End ProcessFacts.

(* ------------------------------------------------------------------ *)
(** ** Facts about the rebuilding loop *)
(* ------------------------------------------------------------------ *)

Section SaveFacts.

Variable variations : list VariationRecord.

Lemma save_loop_length (cells : list value) (i : nat) :
  length (fst (save_loop variations i cells)) = length cells.
Proof.
  revert i. induction cells as [|cell rest IH]; intros i; simpl; [reflexivity|].
  destruct (subscript cell (lit "cell_type")) as [t|e]; [|reflexivity].
  destruct (in_roles t).
  - destruct (nth_error variations i) as [v|]; [|reflexivity].
    destruct (setitem cell (lit "source") _) as [cell'|e]; [|reflexivity].
    specialize (IH (S i)).
    destruct (save_loop variations (S i) rest) as [rest' stopped].
    simpl in *. now rewrite IH.
  - specialize (IH (S i)).
    destruct (save_loop variations (S i) rest) as [rest' stopped].
    simpl in *. now rewrite IH.
Qed.

(** Whether or not the loop ran to its end, a cell differs from what it was
    at most under the key [source], and only if its role is recognised. *)
Lemma save_loop_frame (cells : list value) (i j : nat) (cell : value) :
  nth_error cells j = Some cell ->
  exists cell',
    nth_error (fst (save_loop variations i cells)) j = Some cell' /\
    (forall k, k <> lit "source" -> subscript cell' k = subscript cell k) /\
    (cell_in_roles cell = false -> cell' = cell).
Proof.
  revert i j. induction cells as [|c rest IH]; intros i j Hj.
  - destruct j; discriminate.
  - assert (Hsame : forall l,
              nth_error (c :: l) 0 = Some cell ->
              exists cell', nth_error (c :: l) 0 = Some cell' /\
                (forall k, k <> lit "source" ->
                           subscript cell' k = subscript cell k) /\
                (cell_in_roles cell = false -> cell' = cell)).
    { intros l H. exists cell. auto. }
    simpl. unfold cell_in_roles.
    destruct (subscript c (lit "cell_type")) as [t|e] eqn:Et.
    + destruct (in_roles t) eqn:Ein.
      * destruct (nth_error variations i) as [v|].
        -- destruct (setitem c (lit "source") _) as [c'|e] eqn:Eset.
           ++ specialize (IH (S i)).
              destruct (save_loop variations (S i) rest) as [rest' stopped].
              destruct j as [|j]; simpl in *.
              ** injection Hj as <-. exists c'. split; [reflexivity|]. split.
                 --- intros k Hk. eapply subscript_setitem_other; eassumption.
                 --- rewrite Et, Ein. discriminate.
              ** now apply IH.
           ++ destruct j as [|j]; [now apply Hsame|].
              exists cell. simpl in *. auto.
        -- destruct j as [|j]; [now apply Hsame|].
           exists cell. simpl in *. auto.
      * specialize (IH (S i)).
        destruct (save_loop variations (S i) rest) as [rest' stopped].
        destruct j as [|j]; simpl in *; [now apply Hsame | now apply IH].
    + destruct j as [|j]; [now apply Hsame|].
      exists cell. simpl in *. auto.
Qed.


(** The loop stops exactly at a recognised cell that has no variation at its
    index, provided every cell carries a [cell_type]. *)
Lemma save_loop_stops (cells : list value) (i : nat) :
  forallb has_cell_type cells = true ->
  snd (save_loop variations i cells) =
  if existsb cell_in_roles (skipn (length variations - i) cells)
  then Some IndexError else None.
Proof.
  revert i. induction cells as [|c rest IH]; intros i Hall.
  - now rewrite skipn_nil.
  - simpl in Hall. apply andb_true_iff in Hall as [Hc Hrest].
    unfold has_cell_type in Hc. simpl.
    destruct (subscript c (lit "cell_type")) as [t|e] eqn:Et; [|discriminate].
    assert (Hrole : cell_in_roles c = in_roles t).
    { unfold cell_in_roles. now rewrite Et. }
    destruct (in_roles t) eqn:Ein.
    + destruct (nth_error variations i) as [v|] eqn:Ev.
      * destruct (subscript_ok_setitem c t (lit "cell_type") (lit "source")
                    (PyList (map PyStr (splitlines_keepends (variation v)))) Et)
          as [c' ->].
        specialize (IH (S i) Hrest).
        destruct (save_loop variations (S i) rest) as [rest' stopped].
        simpl in *. rewrite IH.
        assert (Hlt : i < length variations).
        { apply nth_error_Some. congruence. }
        replace (length variations - i) with (S (length variations - S i))
          by lia.
        reflexivity.
      * apply nth_error_None in Ev.
        replace (length variations - i) with 0 by lia.
        simpl. now rewrite Hrole.
    + specialize (IH (S i) Hrest).
      destruct (save_loop variations (S i) rest) as [rest' stopped].
      simpl in *. rewrite IH.
      destruct (length variations - i) as [|k] eqn:Ek.
      * replace (length variations - S i) with 0 by lia.
        simpl. now rewrite Hrole.
      * replace (length variations - S i) with k by lia. reflexivity.
Qed.

Lemma dump_to_raises (w : World) (path : str) (v : value) (e : exn) :
  fst (dump_to w path v) = Raise e -> e = IOError.
Proof.
  unfold dump_to. destruct (existsb _ (unwritable w)).
  - simpl. intros H. now injection H as <-.
  - destruct (existsb _ (faulty w)); simpl; [|discriminate].
    intros H. now injection H as <-.
Qed.

(** [save_variations] on a notebook object that holds a list of cells. *)
Lemma save_variations_cells (path : str) (d : list (str * value))
  (cells : list value) (w : World) :
  dict_get d (lit "cells") = Some (PyList cells) ->
  save_variations variations path (PyDict d) w =
  let nb' :=
    PyDict (dict_set d (lit "cells")
              (PyList (fst (save_loop variations 0 cells)))) in
  match snd (save_loop variations 0 cells) with
  | Some e => (Raise e, nb', w)
  | None => (Ok tt, nb', snd (dump_to w path nb'))
  end.
Proof.
  intros Hd. unfold save_variations, subscript. rewrite Hd.
  cbv beta iota delta [iter with_cells].
  destruct (save_loop variations 0 cells) as [items' stopped]. simpl.
  destruct stopped as [e|]; [reflexivity|].
  destruct (dump_to w path _) as [[u|e] w'] eqn:Ed; [reflexivity|].
  assert (He : e = IOError).
  { apply (dump_to_raises w path
             (PyDict (dict_set d (lit "cells") (PyList items')))).
    now rewrite Ed. }
  now rewrite He.
Qed.

End SaveFacts.

Section RebuildFacts.

Variable variations : list VariationRecord.

(** Every key but [source] reads the same in every cell after the loop. *)
Lemma save_loop_other_keys (cells : list value) (i : nat) (k : str) :
  k <> lit "source" ->
  map (fun c => subscript c k) (fst (save_loop variations i cells)) =
  map (fun c => subscript c k) cells.
Proof.
  intros Hk. revert i. induction cells as [|c rest IH]; intros i; simpl;
    [reflexivity|].
  destruct (subscript c (lit "cell_type")) as [t|e]; [|reflexivity].
  destruct (in_roles t).
  - destruct (nth_error variations i) as [v|]; [|reflexivity].
    destruct (setitem c (lit "source") _) as [c'|e] eqn:Eset; [|reflexivity].
    specialize (IH (S i)).
    destruct (save_loop variations (S i) rest) as [rest' stopped].
    simpl in *. rewrite IH.
    now rewrite (subscript_setitem_other _ _ _ _ _ Eset Hk).
  - specialize (IH (S i)).
    destruct (save_loop variations (S i) rest) as [rest' stopped].
    simpl in *. now rewrite IH.
Qed.

(** What [save_variations] leaves behind on a notebook object that holds a
    list of cells: the object with its cells as the loop left them; a normal
    return exactly when the loop ran to its end; the file system untouched,
    or the object written to the output path. *)
Lemma save_variations_leaves (path : str) (d : list (str * value))
  (cells : list value) (w w' : World) (r : result unit) (nb' : value) :
  dict_get d (lit "cells") = Some (PyList cells) ->
  save_variations variations path (PyDict d) w = (r, nb', w') ->
  nb' = PyDict (dict_set d (lit "cells")
                  (PyList (fst (save_loop variations 0 cells)))) /\
  match snd (save_loop variations 0 cells) with
  | Some e => r = Raise e /\ w' = w
  | None => r = Ok tt /\ w' = snd (dump_to w path nb')
  end.
Proof.
  intros Hd. rewrite (save_variations_cells variations path d cells w Hd).
  cbv zeta.
  destruct (snd (save_loop variations 0 cells)) as [e|];
    intros H; injection H as <- <- <-; auto.
Qed.

Lemma truthy_dict_set (d : list (str * value)) (k : str) (v : value) :
  truthy (PyDict (dict_set d k v)) = true.
Proof.
  destruct d as [|[k0 v0] d]; simpl; [reflexivity|].
  now destruct (str_eqb k0 k).
Qed.

Lemma truthy_dict_get (d : list (str * value)) (k : str) (v : value) :
  dict_get d k = Some v -> truthy (PyDict d) = true.
Proof. destruct d; [discriminate | reflexivity]. Qed.

Lemma blocks_have_cell_type (cells : list value) :
  forallb is_block cells = true -> forallb has_cell_type cells = true.
Proof.
  induction cells as [|c rest IH]; simpl; [reflexivity|].
  intros H. apply andb_true_iff in H as [Hc Hrest].
  rewrite (IH Hrest), andb_true_r.
  unfold is_block in Hc. unfold has_cell_type.
  now destruct (subscript c (lit "cell_type")).
Qed.

Lemma lookup_store_file (fs : list (str * file)) (p p' : str) (f : file) :
  lookup_file (store_file fs p f) p' =
  if str_eqb p p' then Some f else lookup_file fs p'.
Proof.
  induction fs as [|[p0 f0] fs IH]; simpl.
  - reflexivity.
  - destruct (str_eqb p0 p) eqn:E0; simpl.
    + apply str_eqb_eq in E0. subst p0. now destruct (str_eqb p p').
    + rewrite IH.
      destruct (str_eqb p0 p') eqn:E1; [|reflexivity].
      destruct (str_eqb p p') eqn:E2; [|reflexivity].
      apply str_eqb_eq in E1, E2. subst. now rewrite str_eqb_refl in E0.
Qed.

(** What [dump_to] can do to the file system: nothing, or put the encoding
    of the value or a cut-off text under the path. *)
Lemma dump_to_leaves (w : World) (path : str) (v : value) :
  snd (dump_to w path v) = w \/
  (unwritable (snd (dump_to w path v)) = unwritable w /\
   faulty (snd (dump_to w path v)) = faulty w /\
   (files (snd (dump_to w path v)) = store_file (files w) path (Encoded v) \/
    files (snd (dump_to w path v)) = store_file (files w) path Garbage)).
Proof.
  unfold dump_to. destruct (existsb _ (unwritable w)); [now left|].
  destruct (existsb _ (faulty w)); right; simpl; auto.
Qed.

Lemma dump_to_frame (w : World) (path : str) (v : value) :
  unwritable (snd (dump_to w path v)) = unwritable w /\
  forall p, p <> path ->
    lookup_file (files (snd (dump_to w path v))) p = lookup_file (files w) p.
Proof.
  unfold dump_to. destruct (existsb _ (unwritable w)); [now split|].
  destruct (existsb _ (faulty w)); simpl; split; try reflexivity;
    intros p Hp; rewrite lookup_store_file, str_eqb_neq;
    reflexivity || congruence.
Qed.

Lemma dump_to_written (w : World) (path : str) (v : value) :
  existsb (str_eqb path) (unwritable w) = false ->
  existsb (str_eqb path) (faulty w) = false ->
  dump_to w path v =
  (Ok tt,
   {| files := store_file (files w) path (Encoded v);
      unwritable := unwritable w; faulty := faulty w |}).
Proof. intros Hu Hf. unfold dump_to. now rewrite Hu, Hf. Qed.

(** The effect of [save_variations] on the file system: a normal return
    leaves what [dump_to] left; an exception leaves the file system as it
    was. *)
Lemma save_variations_world (path : str) (notebook : value) (w w' : World)
  (r : result unit) (nb' : value) :
  save_variations variations path notebook w = (r, nb', w') ->
  match r with
  | Ok _ => w' = snd (dump_to w path nb')
  | Raise _ => w' = w
  end.
Proof.
  unfold save_variations.
  destruct (subscript notebook (lit "cells")) as [cells|e];
    [|intros H; now injection H as <- <- <-].
  destruct (iter cells) as [items|e];
    [|intros H; now injection H as <- <- <-].
  destruct (save_loop variations 0 items) as [items' [e|]];
    [intros H; now injection H as <- <- <-|].
  match goal with
  | |- context [dump_to w path ?nb] => set (rebuilt := nb)
  end.
  destruct (dump_to w path rebuilt) as [[u|e] w1] eqn:Ed.
  - intros H. injection H as <- <- <-. now rewrite Ed.
  - assert (He : e = IOError).
    { apply (dump_to_raises w path rebuilt). now rewrite Ed. }
    rewrite He. intros H. injection H as <- <- <-. now rewrite Ed.
Qed.

(** The notebook object [save_variations] leaves: with a list of cells, the
    object with the cells as the loop left them; otherwise the object as it
    was (iterating a str or a dict visits fresh strs, which the loop cannot
    subscript). *)
Lemma save_variations_notebook (path : str) (notebook : value) (w w' : World)
  (r : result unit) (nb' : value) :
  save_variations variations path notebook w = (r, nb', w') ->
  (exists d cells,
     notebook = PyDict d /\
     dict_get d (lit "cells") = Some (PyList cells) /\
     nb' = PyDict (dict_set d (lit "cells")
                     (PyList (fst (save_loop variations 0 cells))))) \/
  ((forall cells, subscript notebook (lit "cells") <> Ok (PyList cells)) /\
   nb' = notebook).
Proof.
  intros Hs.
  destruct (subscript notebook (lit "cells")) as [x|e] eqn:Ex.
  - destruct notebook as [| | | | | |d]; try discriminate.
    unfold subscript in Ex.
    destruct (dict_get d (lit "cells")) as [y|] eqn:Hd; [|discriminate].
    injection Ex as ->.
    destruct x as [| | | | |cells|]; cycle 5.
    { left. exists d, cells. split; [reflexivity|]. split; [exact Hd|].
      exact (proj1 (save_variations_leaves path d cells w w' r nb' Hd Hs)). }
    all: right; split; [intros cells; discriminate|].
    all: unfold save_variations, subscript in Hs; rewrite Hd in Hs;
      simpl in Hs.
    all: try (now injection Hs as _ <- _).
    + destruct (save_loop variations 0 _) as [items' [e|]];
        [now injection Hs as _ <- _|].
      destruct (dump_to w path (PyDict d)) as [[u|e] w1];
        [now injection Hs as _ <- _|].
      destruct e; now injection Hs as _ <- _.
    + destruct (save_loop variations 0 _) as [items' [e|]];
        [now injection Hs as _ <- _|].
      destruct (dump_to w path (PyDict d)) as [[u|e] w1];
        [now injection Hs as _ <- _|].
      destruct e; now injection Hs as _ <- _.
  - right. split; [intros cells; discriminate|].
    unfold save_variations in Hs. rewrite Ex in Hs.
    now injection Hs as _ <- _.
Qed.

(** With a variation for every cell the rebuilding returns normally. *)
Lemma save_variations_matched (path : str) (d : list (str * value))
  (cells : list value) (w : World) :
  dict_get d (lit "cells") = Some (PyList cells) ->
  forallb has_cell_type cells = true ->
  length cells <= length variations ->
  exists w',
    save_variations variations path (PyDict d) w =
    (Ok tt,
     PyDict (dict_set d (lit "cells")
               (PyList (fst (save_loop variations 0 cells)))), w').
Proof.
  intros Hd Hall Hlen.
  rewrite (save_variations_cells variations path d cells w Hd). cbv zeta.
  rewrite (save_loop_stops variations cells 0 Hall), Nat.sub_0_r.
  rewrite (skipn_all2 cells Hlen). simpl. eauto.
Qed.

End RebuildFacts.

(* ------------------------------------------------------------------ *)
(** ** Properties of the pipeline *)
(* ------------------------------------------------------------------ *)

(** C1. [process_cells_with_function_call] returns one record per input
    block, in the order of the blocks. The empty sequence gives the empty
    result, without any call. Whenever the pass returns, the result is as
    long as the input and its i-th record carries the role and the text of
    the i-th block. And the pass does return on every sequence of blocks
    (cells with a role and a text) when the service answers every call. *)
Theorem process_one_record_per_block (respond : Remote) :
  (forall calls,
     process_cells_with_function_call respond (PyList []) calls = (Ok [], calls)) /\
  (forall cells calls variations calls',
     process_cells_with_function_call respond (PyList cells) calls =
       (Ok variations, calls') ->
     length variations = length cells /\
     Forall2 reads cells variations) /\
  (forall cells calls,
     always_answers respond ->
     forallb is_block cells = true ->
     exists variations calls',
       process_cells_with_function_call respond (PyList cells) calls =
         (Ok variations, calls') /\
       length variations = length cells /\
       Forall2 reads cells variations).
Proof.
  split; [reflexivity|]. split.
  - intros cells calls vs c Hp.
    unfold process_cells_with_function_call in Hp. simpl iter in Hp.
    cbv beta iota in Hp.
    pose proof (process_loop_reads respond _ _ _ _ Hp) as Hr.
    split; [symmetry; exact (Forall2_length Hr) | exact Hr].
  - intros cells calls Hc Hb.
    destruct (process_blocks_returns respond cells calls Hc Hb)
      as [vs [c [Hp Hr]]].
    exists vs, c. split; [assumption|].
    split; [symmetry; exact (Forall2_length Hr) | exact Hr].
Qed.

(** C2, on the code. The handler of [generate_variation_with_function_call]
    names [openai.Error], which the package does not define: whatever the
    call raises, the function raises [AttributeError] instead of returning
    the message, and in the processing loop that exception ends the pass at
    that block, after its request was logged; no record is returned and the
    blocks after it are not processed. A response that holds no candidate
    does give the message back. *)
Theorem service_error_is_not_absorbed (respond : Remote) :
  (forall message r language context ps doc audience limit calls e,
     respond calls
       (build_request message r language context ps doc audience limit)
       = Raises e ->
     generate_variation_with_function_call respond message r language context
       ps doc audience limit calls =
     (Raise AttributeError,
      calls ++ [build_request message r language context ps doc audience limit]))
  /\
  (forall pre cell post t r source calls us calls1 e,
     process_cells_with_function_call respond (PyList pre) calls = (Ok us, calls1) ->
     subscript cell (lit "cell_type") = Ok t ->
     member_of_roles t = Some r ->
     cell_text cell = Ok source ->
     respond calls1 (request_for source r) = Raises e ->
     process_cells_with_function_call respond (PyList (pre ++ cell :: post)) calls =
     (Raise AttributeError, calls1 ++ [request_for source r]))
  /\
  (forall message r language context ps doc audience limit calls completion,
     respond calls
       (build_request message r language context ps doc audience limit)
       = Returns completion ->
     choices completion = [] ->
     generate_variation_with_function_call respond message r language context
       ps doc audience limit calls =
     (Ok message,
      calls ++ [build_request message r language context ps doc audience limit])).
Proof.
  split; [|split].
  - intros. eapply generate_raised. eassumption.
  - intros pre cell post t r source calls us calls1 e Hpre Ht Hr Hs Hraise.
    unfold process_cells_with_function_call in *. simpl iter in *.
    cbv beta iota in *.
    rewrite process_loop_app, Hpre, process_loop_cons. unfold process_cell.
    unfold cell_text in Hs. rewrite Ht, Hs, Hr.
    unfold request_for in *.
    now rewrite (generate_raised respond _ _ _ _ _ _ _ _ _ _ Hraise).
  - intros. eapply generate_answered. eassumption.
Qed.

(** C8, on the code. The response object is not a mapping, so the test
    ['choices' in completion] is false whatever the response holds: when the
    call returns, [generate_variation_with_function_call] returns the message
    it was given, also when the response holds candidates, and never the
    stripped text of the first candidate. *)
Theorem generate_ignores_the_completion (respond : Remote)
  (message r language context : str) (ps doc : bool) (audience : str)
  (limit : option Z) (calls : list CompletionRequest)
  (completion : Completion) (first : Choice) (others : list Choice) :
  respond calls
    (build_request message r language context ps doc audience limit)
    = Returns completion ->
  choices completion = first :: others ->
  generate_variation_with_function_call respond message r language context
    ps doc audience limit calls =
  (Ok message,
   calls ++ [build_request message r language context ps doc audience limit]).
Proof.
  intros Hr _. exact (generate_answered respond _ _ _ _ _ _ _ _ _ _ Hr).
Qed.

(** C10. [extract_cells] returns the empty list for every falsy document
    ([None], an empty dict and the like), returns the value stored under
    ['cells'] for a document that has that key, and raises [KeyError] for
    every non-empty document object that lacks it. *)
Theorem extract_cells_needs_cells_key :
  (forall notebook, truthy notebook = false ->
     extract_cells notebook = Ok (PyList [])) /\
  (forall d, d <> [] -> dict_get d (lit "cells") = None ->
     extract_cells (PyDict d) = Raise KeyError) /\
  (forall d cells, dict_get d (lit "cells") = Some cells ->
     extract_cells (PyDict d) = Ok cells).
Proof.
  unfold extract_cells. repeat split.
  - intros notebook H. now rewrite H.
  - intros d Hd Hnone. destruct d; [contradiction|]. simpl truthy.
    unfold subscript. now rewrite Hnone.
  - intros d cells Hsome. rewrite (truthy_dict_get _ _ _ Hsome).
    unfold subscript. now rewrite Hsome.
Qed.

(** A truthy value that is not a dict (a list, a str, a number) is outside
    the documents [load_notebook] is documented to return; subscripting it
    with ['cells'] raises [TypeError]. *)
Remark extract_cells_not_a_dict (notebook : value) :
  truthy notebook = true ->
  (forall d, notebook <> PyDict d) ->
  extract_cells notebook = Raise TypeError.
Proof.
  intros Ht Hd. unfold extract_cells. rewrite Ht.
  destruct notebook; try reflexivity. now destruct (Hd d).
Qed.

(** C3, as the code has it. On a document whose cells all carry a
    [cell_type], [save_variations] raises [IndexError] exactly when a cell
    with a recognised role sits at an index that has no variation, and then
    the file system is left as it was; otherwise (variations left over, or
    only unrecognised cells beyond the last variation) it returns normally. *)
Theorem rebuild_index_error (variations : list VariationRecord) (path : str)
  (d : list (str * value)) (cells : list value) (w : World) :
  dict_get d (lit "cells") = Some (PyList cells) ->
  forallb has_cell_type cells = true ->
  if existsb cell_in_roles (skipn (length variations) cells)
  then exists nb',
         save_variations variations path (PyDict d) w = (Raise IndexError, nb', w)
  else exists nb' w',
         save_variations variations path (PyDict d) w = (Ok tt, nb', w').
Proof.
  intros Hd Hall.
  rewrite (save_variations_cells variations path d cells w Hd). cbv zeta.
  rewrite (save_loop_stops variations cells 0 Hall), Nat.sub_0_r.
  destruct (existsb cell_in_roles (skipn (length variations) cells)).
  - eauto.
  - destruct (dump_to w path _); eauto.
Qed.

(** C4, on the code. With an absent document [extract_cells] returns the
    empty list and processing returns no record, but [save_variations]
    subscripts [None]: it raises [TypeError] and writes nothing, and so does
    the whole run when the input file is missing. *)
Theorem absent_document_rebuild_raises :
  extract_cells PyNone = Ok (PyList []) /\
  (forall respond calls,
     process_cells_with_function_call respond (PyList []) calls = (Ok [], calls)) /\
  (forall variations path w,
     save_variations variations path PyNone w = (Raise TypeError, PyNone, w)) /\
  (forall respond,
     main_with_function_call respond Sample.empty_world [] =
     (Raise TypeError, Sample.empty_world, [])).
Proof. repeat split. Qed.

(** C5. For a document object holding a list of blocks, and a service that
    answers every call, the run extract, process,
    rebuild returns normally, and extracting the cells of the rebuilt
    document gives as many cells as before, with the same [cell_type] at
    each index; a cell differs from the one it was at most under the key
    [source]. *)
Theorem roundtrip_preserves_blocks (respond : Remote)
  (d : list (str * value)) (cells : list value)
  (calls : list CompletionRequest) (path : str) (w : World) :
  dict_get d (lit "cells") = Some (PyList cells) ->
  always_answers respond ->
  forallb is_block cells = true ->
  exists variations calls' nb' w' cells',
    extract_cells (PyDict d) = Ok (PyList cells) /\
    process_cells_with_function_call respond (PyList cells) calls =
      (Ok variations, calls') /\
    save_variations variations path (PyDict d) w = (Ok tt, nb', w') /\
    extract_cells nb' = Ok (PyList cells') /\
    length cells' = length cells /\
    map (fun c => subscript c (lit "cell_type")) cells' =
      map (fun c => subscript c (lit "cell_type")) cells /\
    forall k, k <> lit "source" ->
      map (fun c => subscript c k) cells' = map (fun c => subscript c k) cells.
Proof.
  intros Hd Hc Hb.
  destruct (process_blocks_returns respond cells calls Hc Hb)
    as [vs [c [Hp Hr]]].
  pose proof (Forall2_length Hr) as Hlen.
  destruct (save_variations_matched vs path d cells w Hd
              (blocks_have_cell_type cells Hb)) as [w' Hs]; [lia|].
  exists vs, c,
    (PyDict (dict_set d (lit "cells") (PyList (fst (save_loop vs 0 cells))))),
    w', (fst (save_loop vs 0 cells)).
  split.
  { unfold extract_cells. rewrite (truthy_dict_get _ _ _ Hd).
    unfold subscript. now rewrite Hd. }
  split; [assumption|]. split; [exact Hs|]. split.
  { unfold extract_cells. rewrite truthy_dict_set.
    unfold subscript. now rewrite dict_get_set, str_eqb_refl. }
  split; [apply save_loop_length|].
  split; intros; apply save_loop_other_keys; [discriminate | assumption].
Qed.

(** C6. A block whose [cell_type] is not one of the eight recognised roles
    gets a record whose variation is its original text, the loop body makes
    no call for it (the log of requests is left as it was), and after
    rebuilding, with any variations and whether or not the rebuilding ran to
    its end, the cell at its index is the cell it was. *)
Theorem unrecognised_block_passes_through (respond : Remote)
  (pre post : list value) (cell t : value)
  (calls calls' : list CompletionRequest) (variations : list VariationRecord) :
  process_cells_with_function_call respond (PyList (pre ++ cell :: post)) calls =
    (Ok variations, calls') ->
  subscript cell (lit "cell_type") = Ok t ->
  in_roles t = false ->
  exists source,
    bind (subscript cell (lit "source")) join = Ok source /\
    nth_error variations (length pre) =
      Some {| role := t; original := source; variation := source |} /\
    (forall acc log,
       process_cell respond cell acc log =
       (Ok (acc ++ [{| role := t; original := source; variation := source |}]),
        log)) /\
    (forall vars path d w r nb' w',
       dict_get d (lit "cells") = Some (PyList (pre ++ cell :: post)) ->
       save_variations vars path (PyDict d) w = (r, nb', w') ->
       exists cells',
         subscript nb' (lit "cells") = Ok (PyList cells') /\
         nth_error cells' (length pre) = Some cell).
Proof.
  intros Hp Ht Hout.
  unfold process_cells_with_function_call in Hp. simpl iter in Hp.
  cbv beta iota in Hp.
  destruct (process_loop_split respond _ _ _ _ _ _ Hp)
    as [us [v [ws [c1 [c2 [_ [Hcell [_ [Hvs Hlen]]]]]]]]].
  destruct (process_cell_one respond _ _ _ _ Hcell)
    as [v' [Hv' [Hrole [Hsrc Hvar]]]].
  injection Hv' as <-.
  destruct v as [vrole vorig vvar]. simpl in *.
  rewrite Ht in Hrole. injection Hrole as <-.
  rewrite (not_in_roles_member t Hout) in Hvar. destruct Hvar as [-> _].
  exists vorig. split; [assumption|]. split.
  { subst variations. rewrite nth_error_app2 by lia.
    now rewrite Hlen, Nat.sub_diag. }
  split.
  { intros acc log. unfold process_cell.
    now rewrite Ht, Hsrc, (not_in_roles_member t Hout). }
  intros vars path d w r nb' w' Hd Hs.
  destruct (save_variations_leaves vars path d _ w w' r nb' Hd Hs) as [-> _].
  exists (fst (save_loop vars 0 (pre ++ cell :: post))). split.
  { unfold subscript. now rewrite dict_get_set, str_eqb_refl. }
  assert (Hnth : nth_error (pre ++ cell :: post) (length pre) = Some cell).
  { rewrite nth_error_app2 by lia. now rewrite Nat.sub_diag. }
  destruct (save_loop_frame vars _ 0 _ _ Hnth) as [cell' [Hc' [_ Hsame]]].
  rewrite Hc'. f_equal. apply Hsame.
  unfold cell_in_roles. now rewrite Ht.
Qed.


(** C9. Whatever its result, [save_variations] leaves every key of the
    document other than ['cells'] as it was; the cell list keeps its length;
    every key of every cell other than ['source'] reads as before; a cell
    whose role is not recognised is the cell it was; a document whose
    ['cells'] is not a list is left as it was; and the only file it can touch
    is the output path, which then holds the rebuilt document, or a cut-off
    text when the write failed after the file was opened. *)
Theorem rebuild_frame (variations : list VariationRecord) (path : str)
  (notebook : value) (w w' : World) (r : result unit) (nb' : value) :
  save_variations variations path notebook w = (r, nb', w') ->
  (forall k, k <> lit "cells" -> subscript nb' k = subscript notebook k) /\
  (forall cells,
     subscript notebook (lit "cells") = Ok (PyList cells) ->
     exists cells',
       subscript nb' (lit "cells") = Ok (PyList cells') /\
       length cells' = length cells /\
       forall i cell,
         nth_error cells i = Some cell ->
         exists cell',
           nth_error cells' i = Some cell' /\
           (forall k, k <> lit "source" ->
                      subscript cell' k = subscript cell k) /\
           (cell_in_roles cell = false -> cell' = cell)) /\
  ((forall cells, subscript notebook (lit "cells") <> Ok (PyList cells)) ->
   nb' = notebook) /\
  (w' = w \/
   (unwritable w' = unwritable w /\ faulty w' = faulty w /\
    (files w' = store_file (files w) path (Encoded nb') \/
     files w' = store_file (files w) path Garbage))).
Proof.
  intros Hs.
  assert (Hworld : w' = w \/
            (unwritable w' = unwritable w /\ faulty w' = faulty w /\
             (files w' = store_file (files w) path (Encoded nb') \/
              files w' = store_file (files w) path Garbage))).
  { pose proof (save_variations_world variations _ _ _ _ _ _ Hs) as Hw.
    destruct r as [u|e]; [|now left].
    subst w'. apply dump_to_leaves. }
  destruct (save_variations_notebook variations _ _ _ _ _ _ Hs)
    as [[d [cells [-> [Hd ->]]]] | [Hno ->]].
  - split.
    { intros k Hk. unfold subscript.
      rewrite dict_get_set, str_eqb_neq; [reflexivity | congruence]. }
    split.
    { intros cells0 H0. unfold subscript in H0. rewrite Hd in H0.
      injection H0 as <-.
      exists (fst (save_loop variations 0 cells)). split.
      { unfold subscript. now rewrite dict_get_set, str_eqb_refl. }
      split; [apply save_loop_length|].
      intros i cell Hi. now apply save_loop_frame. }
    split; [|exact Hworld].
    intros Hnone. exfalso. apply (Hnone cells).
    unfold subscript. now rewrite Hd.
  - split; [reflexivity|]. split.
    { intros cells H. now destruct (Hno cells). }
    split; [reflexivity | exact Hworld].
Qed.

(* ------------------------------------------------------------------ *)
(** ** The properties at work on the sample notebook *)
(* ------------------------------------------------------------------ *)

Lemma scripted_answers : always_answers Sample.scripted.
Proof.
  intros calls request. unfold Sample.scripted.
  destruct (length calls) as [|[|k]]; eexists; reflexivity.
Qed.

Lemma process_one_record_per_block_witness :
  always_answers Sample.scripted /\
  forallb is_block Sample.cells = true /\
  (exists variations calls',
     process_cells_with_function_call Sample.scripted (PyList Sample.cells) [] =
       (Ok variations, calls') /\
     length variations = length Sample.cells /\
     Forall2 reads Sample.cells variations) /\
  process_cells_with_function_call Sample.scripted (PyList Sample.cells) [] =
    (Ok Sample.records, Sample.log) /\
  length Sample.records = length Sample.cells /\
  Forall2 reads Sample.cells Sample.records.
Proof.
  destruct (process_one_record_per_block Sample.scripted)
    as [_ [Hreturned Hreturns]].
  split; [exact scripted_answers|]. split; [reflexivity|].
  split; [apply Hreturns; [exact scripted_answers | reflexivity]|].
  split; [reflexivity|].
  exact (Hreturned Sample.cells [] Sample.records Sample.log eq_refl).
Defined.

Lemma service_error_is_not_absorbed_witness :
  process_cells_with_function_call Sample.failing (PyList []) [] = (Ok [], []) /\
  subscript Sample.code_cell (lit "cell_type") = Ok (PyStr (lit "code")) /\
  member_of_roles (PyStr (lit "code")) = Some (lit "code") /\
  cell_text Sample.code_cell = Ok (lit "print(1)") /\
  Sample.failing [] (request_for (lit "print(1)") (lit "code")) =
    Raises OpenAIError /\
  process_cells_with_function_call Sample.failing
    (PyList ([] ++ Sample.code_cell :: [Sample.raw_cell])) [] =
  (Raise AttributeError, [] ++ [request_for (lit "print(1)") (lit "code")]).
Proof.
  repeat (split; [reflexivity|]).
  apply (proj1 (proj2 (service_error_is_not_absorbed Sample.failing))
           [] Sample.code_cell [Sample.raw_cell] (PyStr (lit "code"))
           (lit "code") (lit "print(1)") [] [] [] OpenAIError); reflexivity.
Defined.

Lemma generate_ignores_the_completion_witness :
  Sample.scripted []
    (build_request (lit "print(1)") (lit "code") (lit "python")
       (lit "notebook") true true (lit "general") None)
    = Returns {| choices := [{| text := lit "print(2)  " |}] |} /\
  choices {| choices := [{| text := lit "print(2)  " |}] |} =
    {| text := lit "print(2)  " |} :: [] /\
  generate_variation_with_function_call Sample.scripted (lit "print(1)")
    (lit "code") (lit "python") (lit "notebook") true true (lit "general")
    None [] =
  (Ok (lit "print(1)"),
   [] ++ [build_request (lit "print(1)") (lit "code") (lit "python")
            (lit "notebook") true true (lit "general") None]).
Proof.
  split; [reflexivity|]. split; [reflexivity|].
  apply (generate_ignores_the_completion Sample.scripted
           (lit "print(1)") (lit "code") (lit "python") (lit "notebook")
           true true (lit "general") None []
           {| choices := [{| text := lit "print(2)  " |}] |}
           {| text := lit "print(2)  " |} []); reflexivity.
Defined.

Lemma extract_cells_needs_cells_key_witness :
  truthy PyNone = false /\
  extract_cells PyNone = Ok (PyList []) /\
  Sample.cellless <> [] /\
  dict_get Sample.cellless (lit "cells") = None /\
  extract_cells (PyDict Sample.cellless) = Raise KeyError /\
  dict_get (Sample.notebook_of Sample.cells) (lit "cells") =
    Some (PyList Sample.cells) /\
  extract_cells Sample.notebook = Ok (PyList Sample.cells).
Proof.
  destruct extract_cells_needs_cells_key as [Hfalsy [Hmissing Hpresent]].
  split; [reflexivity|].
  split; [apply Hfalsy; reflexivity|].
  split; [discriminate|].
  split; [reflexivity|].
  split; [apply Hmissing; [discriminate | reflexivity]|].
  split; [reflexivity|].
  apply (Hpresent (Sample.notebook_of Sample.cells)). reflexivity.
Defined.

(** C3, as stated, fails. With no variation at all, a document of one
    unrecognised cell is rebuilt and written; with two variations, a document
    of one code cell is rebuilt and written, the second variation dropped.
    Both have mismatched lengths, and neither raises [IndexError]. *)
Lemma rebuild_mismatch_counterexample :
  (length Sample.no_records <> length [Sample.raw_cell] /\
   exists nb' w',
     save_variations Sample.no_records output_path
       (PyDict (Sample.notebook_of [Sample.raw_cell])) Sample.empty_world =
       (Ok tt, nb', w') /\
     lookup_file (files w') output_path = Some (Encoded nb')) /\
  (length Sample.two_records <> length [Sample.code_cell] /\
   exists nb' w',
     save_variations Sample.two_records output_path
       (PyDict (Sample.notebook_of [Sample.code_cell])) Sample.empty_world =
       (Ok tt, nb', w') /\
     lookup_file (files w') output_path = Some (Encoded nb')) /\
  ~ (forall variations path d cells w,
       dict_get d (lit "cells") = Some (PyList cells) ->
       length variations <> length cells ->
       exists nb',
         save_variations variations path (PyDict d) w =
         (Raise IndexError, nb', w)).
Proof.
  split; [|split].
  - split; [discriminate|]. eexists. eexists. split; reflexivity.
  - split; [discriminate|]. eexists. eexists. split; reflexivity.
  - intros H.
    destruct (H Sample.no_records output_path
                (Sample.notebook_of [Sample.raw_cell]) [Sample.raw_cell]
                Sample.empty_world) as [nb' Hnb'];
      [reflexivity | discriminate | discriminate].
Qed.

Lemma rebuild_index_error_witness :
  dict_get (Sample.notebook_of Sample.cells) (lit "cells") =
    Some (PyList Sample.cells) /\
  forallb has_cell_type Sample.cells = true /\
  (exists nb',
     save_variations [Sample.record "code" "print(1)" "print(2)"] output_path
       Sample.notebook Sample.empty_world =
     (Raise IndexError, nb', Sample.empty_world)) /\
  (exists nb' w',
     save_variations Sample.two_records output_path
       Sample.notebook Sample.empty_world = (Ok tt, nb', w')).
Proof.
  split; [reflexivity|]. split; [reflexivity|]. split.
  - exact (rebuild_index_error [Sample.record "code" "print(1)" "print(2)"]
             output_path (Sample.notebook_of Sample.cells) Sample.cells
             Sample.empty_world eq_refl eq_refl).
  - exact (rebuild_index_error Sample.two_records
             output_path (Sample.notebook_of Sample.cells) Sample.cells
             Sample.empty_world eq_refl eq_refl).
Defined.

Lemma roundtrip_preserves_blocks_witness :
  dict_get (Sample.notebook_of Sample.cells) (lit "cells") =
    Some (PyList Sample.cells) /\
  always_answers Sample.scripted /\
  forallb is_block Sample.cells = true /\
  exists variations calls' nb' w' cells',
    extract_cells Sample.notebook = Ok (PyList Sample.cells) /\
    process_cells_with_function_call Sample.scripted (PyList Sample.cells) [] =
      (Ok variations, calls') /\
    save_variations variations output_path Sample.notebook Sample.empty_world =
      (Ok tt, nb', w') /\
    extract_cells nb' = Ok (PyList cells') /\
    length cells' = length Sample.cells /\
    map (fun c => subscript c (lit "cell_type")) cells' =
      map (fun c => subscript c (lit "cell_type")) Sample.cells /\
    forall k, k <> lit "source" ->
      map (fun c => subscript c k) cells' =
      map (fun c => subscript c k) Sample.cells.
Proof.
  split; [reflexivity|]. split; [exact scripted_answers|].
  split; [reflexivity|].
  exact (roundtrip_preserves_blocks Sample.scripted
           (Sample.notebook_of Sample.cells) Sample.cells [] output_path
           Sample.empty_world eq_refl scripted_answers eq_refl).
Defined.

Lemma unrecognised_block_passes_through_witness :
  process_cells_with_function_call Sample.scripted
    (PyList ([Sample.code_cell; Sample.markdown_cell]
             ++ Sample.raw_cell :: [])) [] =
    (Ok Sample.records, Sample.log) /\
  subscript Sample.raw_cell (lit "cell_type") = Ok (PyStr (lit "raw")) /\
  in_roles (PyStr (lit "raw")) = false /\
  exists source,
    bind (subscript Sample.raw_cell (lit "source")) join = Ok source /\
    nth_error Sample.records 2 =
      Some {| role := PyStr (lit "raw"); original := source;
              variation := source |} /\
    (forall acc log,
       process_cell Sample.scripted Sample.raw_cell acc log =
       (Ok (acc ++ [{| role := PyStr (lit "raw"); original := source;
                       variation := source |}]), log)) /\
    (forall vars path d w r nb' w',
       dict_get d (lit "cells") =
         Some (PyList ([Sample.code_cell; Sample.markdown_cell]
                       ++ Sample.raw_cell :: [])) ->
       save_variations vars path (PyDict d) w = (r, nb', w') ->
       exists cells',
         subscript nb' (lit "cells") = Ok (PyList cells') /\
         nth_error cells' 2 = Some Sample.raw_cell).
Proof.
  split; [reflexivity|]. split; [reflexivity|]. split; [reflexivity|].
  exact (unrecognised_block_passes_through Sample.scripted
           [Sample.code_cell; Sample.markdown_cell] [] Sample.raw_cell
           (PyStr (lit "raw")) [] Sample.log Sample.records
           eq_refl eq_refl eq_refl).
Defined.


Lemma rebuild_frame_witness :
  save_variations Sample.records output_path Sample.notebook
    Sample.empty_world = (Ok tt, Sample.rebuilt, Sample.written) /\
  (forall k, k <> lit "cells" ->
     subscript Sample.rebuilt k = subscript Sample.notebook k) /\
  (forall cells,
     subscript Sample.notebook (lit "cells") = Ok (PyList cells) ->
     exists cells',
       subscript Sample.rebuilt (lit "cells") = Ok (PyList cells') /\
       length cells' = length cells /\
       forall i cell,
         nth_error cells i = Some cell ->
         exists cell',
           nth_error cells' i = Some cell' /\
           (forall k, k <> lit "source" ->
                      subscript cell' k = subscript cell k) /\
           (cell_in_roles cell = false -> cell' = cell)) /\
  ((forall cells,
      subscript Sample.notebook (lit "cells") <> Ok (PyList cells)) ->
   Sample.rebuilt = Sample.notebook) /\
  (Sample.written = Sample.empty_world \/
   (unwritable Sample.written = unwritable Sample.empty_world /\
    faulty Sample.written = faulty Sample.empty_world /\
    (files Sample.written =
       store_file (files Sample.empty_world) output_path
         (Encoded Sample.rebuilt) \/
     files Sample.written =
       store_file (files Sample.empty_world) output_path Garbage))).
Proof.
  split; [reflexivity|].
  exact (rebuild_frame Sample.records output_path Sample.notebook
           Sample.empty_world Sample.written (Ok tt) Sample.rebuilt eq_refl).
Defined.

(** The scenario of three blocks, with a service that answers the code and
    markdown blocks: both requests are sent, the answers are not used, and
    the document written to the output path is the document that was read. *)
Example three_block_scenario :
  main_with_function_call Sample.scripted
    (Sample.world_with Sample.notebook) [] =
  (Ok tt,
   {| files := [(input_path, Encoded Sample.notebook);
                (output_path, Encoded Sample.notebook)];
      unwritable := []; faulty := [] |},
   [request_for (lit "print(1)") (lit "code");
    request_for (lit "# Title") (lit "markdown")]).
Proof. vm_compute. reflexivity. Qed.

(* ------------------------------------------------------------------ *)
(** ** Further facts about the loops and the file system *)
(* ------------------------------------------------------------------ *)

Section MoreFacts.

Lemma dict_set_set (d : list (str * value)) (k : str) (v v' : value) :
  dict_set (dict_set d k v) k v' = dict_set d k v'.
Proof.
  induction d as [|[k0 v0] d IH]; simpl.
  - now rewrite str_eqb_refl.
  - destruct (str_eqb k0 k) eqn:E; simpl; rewrite E; [reflexivity|].
    now rewrite IH.
Qed.

Lemma dict_set_same (d : list (str * value)) (k : str) (v : value) :
  dict_get d k = Some v -> dict_set d k v = d.
Proof.
  induction d as [|[k0 v0] d IH]; simpl; [discriminate|].
  destruct (str_eqb k0 k).
  - intros H. now injection H as ->.
  - intros H. now rewrite IH.
Qed.

Lemma cell_type_is_not_source : lit "cell_type" <> lit "source".
Proof. discriminate. Qed.

Lemma skipn_cons_nth {A : Type} (l : list A) (i : nat) (x : A) (rest : list A) :
  skipn i l = x :: rest -> nth_error l i = Some x /\ skipn (S i) l = rest.
Proof.
  revert l. induction i as [|i IH]; intros [|y l]; simpl; try discriminate.
  - intros H. injection H as -> ->. split; reflexivity.
  - intros H. destruct (IH l H) as [Hn Hs]. split; [exact Hn|].
    destruct l; [destruct i; discriminate | exact Hs].
Qed.

End MoreFacts.

Section MoreSaveFacts.

Variable variations : list VariationRecord.

(** Running the loop again over the cells it left changes nothing and stops
    the same way. *)
Lemma save_loop_again (cells : list value) (i : nat) :
  save_loop variations i (fst (save_loop variations i cells)) =
  save_loop variations i cells.
Proof.
  revert i. induction cells as [|c rest IH]; intros i; [reflexivity|].
  simpl.
  destruct (subscript c (lit "cell_type")) as [t|e] eqn:Et.
  - destruct (in_roles t) eqn:Ein.
    + destruct (nth_error variations i) as [v|] eqn:Ev.
      * destruct (setitem c (lit "source") _) as [c'|e] eqn:Eset.
        -- specialize (IH (S i)).
           destruct (save_loop variations (S i) rest) as [rest' stopped].
           simpl in *.
           rewrite (subscript_setitem_other _ _ _ _ _ Eset
                      cell_type_is_not_source), Et, Ein, Ev.
           destruct c as [| | | | | |d]; try discriminate.
           simpl in Eset. injection Eset as <-. simpl.
           now rewrite dict_set_set, IH.
        -- simpl. now rewrite Et, Ein, Ev, Eset.
      * simpl. now rewrite Et, Ein, Ev.
    + specialize (IH (S i)).
      destruct (save_loop variations (S i) rest) as [rest' stopped].
      simpl in *. now rewrite Et, Ein, IH.
  - simpl. now rewrite Et.
Qed.

(** A recognised cell whose index has a variation is rewritten, also when
    the loop stops at a later cell. *)
Lemma save_loop_reached (cells : list value) (i j : nat) (cell : value)
  (v : VariationRecord) :
  forallb has_cell_type cells = true ->
  nth_error cells j = Some cell ->
  cell_in_roles cell = true ->
  nth_error variations (i + j) = Some v ->
  exists cell',
    nth_error (fst (save_loop variations i cells)) j = Some cell' /\
    subscript cell' (lit "source") =
      Ok (PyList (map PyStr (splitlines_keepends (variation v)))).
Proof.
  revert i j. induction cells as [|c rest IH]; intros i j Hall Hj Hrole Hv.
  - destruct j; discriminate.
  - simpl in Hall. apply andb_true_iff in Hall as [Hc Hrest].
    unfold has_cell_type in Hc. simpl.
    destruct (subscript c (lit "cell_type")) as [t|e] eqn:Et; [|discriminate].
    assert (Hlt : i + j < length variations).
    { apply nth_error_Some. congruence. }
    destruct (in_roles t) eqn:Ein.
    + destruct (nth_error variations i) as [v0|] eqn:Ev0.
      2:{ apply nth_error_None in Ev0. lia. }
      destruct (subscript_ok_setitem c t (lit "cell_type") (lit "source")
                  (PyList (map PyStr (splitlines_keepends (variation v0)))) Et)
        as [c' Eset].
      rewrite Eset.
      specialize (IH (S i)).
      destruct (save_loop variations (S i) rest) as [rest' stopped].
      destruct j as [|j]; simpl in *.
      * rewrite Nat.add_0_r in Hv. rewrite Hv in Ev0. injection Ev0 as <-.
        exists c'. split; [reflexivity|].
        eapply subscript_setitem_same; eassumption.
      * apply IH; try assumption. now rewrite <- plus_n_Sm in Hv.
    + specialize (IH (S i)).
      destruct (save_loop variations (S i) rest) as [rest' stopped].
      destruct j as [|j]; simpl in *.
      * injection Hj as <-. unfold cell_in_roles in Hrole.
        rewrite Et, Ein in Hrole. discriminate.
      * apply IH; try assumption. now rewrite <- plus_n_Sm in Hv.
Qed.

Lemma setitem_source_block (c c' : value) (lines : list str) :
  is_block c = true ->
  setitem c (lit "source") (PyList (map PyStr lines)) = Ok c' ->
  is_block c' = true.
Proof.
  intros Hb Eset. unfold is_block in *.
  rewrite (subscript_setitem_other _ _ _ _ _ Eset cell_type_is_not_source).
  destruct (subscript c (lit "cell_type")) as [t|e]; [|discriminate].
  rewrite (subscript_setitem_same _ _ _ _ Eset). simpl. unfold join. simpl.
  now rewrite join_items_strs.
Qed.

(** The cells the loop leaves can be read by the processing loop again. *)
Lemma save_loop_blocks (cells : list value) (i : nat) :
  forallb is_block cells = true ->
  forallb is_block (fst (save_loop variations i cells)) = true.
Proof.
  revert i. induction cells as [|c rest IH]; intros i Hall; [reflexivity|].
  pose proof Hall as Hall0.
  simpl in Hall. apply andb_true_iff in Hall as [Hc Hrest]. simpl.
  destruct (subscript c (lit "cell_type")) as [t|e]; [|exact Hall0].
  destruct (in_roles t).
  - destruct (nth_error variations i) as [v|]; [|exact Hall0].
    destruct (setitem c (lit "source") _) as [c'|e] eqn:Eset; [|exact Hall0].
    specialize (IH (S i) Hrest).
    destruct (save_loop variations (S i) rest) as [rest' stopped].
    simpl in *. rewrite IH, andb_true_r.
    eapply setitem_source_block; eassumption.
  - specialize (IH (S i) Hrest).
    destruct (save_loop variations (S i) rest) as [rest' stopped].
    simpl in *. now rewrite Hc, IH.
Qed.

(** With no recognised cell the loop runs to its end and changes nothing. *)
Lemma save_loop_nothing_recognised (cells : list value) (i : nat) :
  forallb has_cell_type cells = true ->
  existsb cell_in_roles cells = false ->
  save_loop variations i cells = (cells, None).
Proof.
  revert i. induction cells as [|c rest IH]; intros i Hall Hnone;
    [reflexivity|].
  simpl in Hall, Hnone.
  apply andb_true_iff in Hall as [Hc Hrest].
  apply orb_false_iff in Hnone as [Hcn Hrn].
  unfold has_cell_type in Hc. unfold cell_in_roles in Hcn. simpl.
  destruct (subscript c (lit "cell_type")) as [t|e]; [|discriminate].
  rewrite Hcn. now rewrite (IH (S i) Hrest Hrn).
Qed.

(** When the variation at each index is the text of the cell at that index,
    the loop runs to its end and every cell keeps its text. *)
Lemma save_loop_same_text (cells : list value) (i : nat) :
  forallb has_cell_type cells = true ->
  Forall2 (fun cell v => cell_text cell = Ok (variation v))
    cells (skipn i variations) ->
  snd (save_loop variations i cells) = None /\
  map cell_text (fst (save_loop variations i cells)) = map cell_text cells.
Proof.
  revert i. induction cells as [|c rest IH]; intros i Hall Hal.
  - split; reflexivity.
  - simpl in Hall. apply andb_true_iff in Hall as [Hc Hrest].
    inversion Hal as [|c0 v l vs Hcv Htail Hl Hskip]. subst c0 l.
    symmetry in Hskip. destruct (skipn_cons_nth _ _ _ _ Hskip) as [Hv Hnext].
    rewrite <- Hnext in Htail.
    specialize (IH (S i) Hrest Htail).
    unfold has_cell_type in Hc. simpl.
    destruct (subscript c (lit "cell_type")) as [t|e] eqn:Et; [|discriminate].
    destruct (in_roles t).
    + rewrite Hv.
      destruct (subscript_ok_setitem c t (lit "cell_type") (lit "source")
                  (PyList (map PyStr (splitlines_keepends (variation v)))) Et)
        as [c' Eset].
      rewrite Eset.
      destruct (save_loop variations (S i) rest) as [rest' stopped].
      simpl in *. destruct IH as [-> ->]. split; [reflexivity|].
      f_equal. unfold cell_text.
      rewrite (subscript_setitem_same _ _ _ _ Eset). simpl. unfold join. simpl.
      rewrite join_items_strs, concat_splitlines. symmetry. exact Hcv.
    + destruct (save_loop variations (S i) rest) as [rest' stopped].
      simpl in *. destruct IH as [-> ->]. split; reflexivity.
Qed.

End MoreSaveFacts.

Section MoreProcessFacts.

Variable respond : Remote.

(** The log after a pass that returned: the log before it, then one request
    for each recognised cell, in order. *)
Lemma process_loop_requests (cells : list value)
  (calls calls' : list CompletionRequest) (vs : list VariationRecord) :
  process_loop respond cells [] calls = (Ok vs, calls') ->
  calls' = calls ++ requests_of cells.
Proof.
  revert calls vs. induction cells as [|cell rest IH]; intros calls vs.
  - simpl. intros H. injection H as _ <-. now rewrite app_nil_r.
  - rewrite process_loop_cons.
    destruct (process_cell respond cell [] calls) as [[us|e] c] eqn:Ec;
      [|discriminate].
    destruct (process_loop respond rest [] c) as [[ws|e] c2] eqn:Er;
      [|discriminate].
    intros H. injection H as _ <-.
    destruct (process_cell_one respond _ _ _ _ Ec) as [v [_ [Ht [Hs Hvar]]]].
    rewrite (IH _ _ Er). simpl. unfold cell_text. rewrite Ht, Hs.
    destruct (member_of_roles (role v)) as [r|].
    + pose proof (generate_logs respond (original v) r (lit "python")
                    (lit "This is part of a Jupyter notebook.") true true
                    (lit "general") (Some 150%Z) calls) as Hlog.
      rewrite Hvar in Hlog. simpl in Hlog. subst c.
      unfold request_for. now rewrite <- app_assoc.
    + destruct Hvar as [_ ->]. reflexivity.
Qed.

(** A variation that comes back from a pass is the text of its block: the
    message is all [generate_variation_with_function_call] returns. *)
Lemma process_loop_keeps_text (cells : list value)
  (calls calls' : list CompletionRequest) (vs : list VariationRecord) :
  process_loop respond cells [] calls = (Ok vs, calls') ->
  Forall2 (fun cell v => cell_text cell = Ok (variation v)) cells vs /\
  Forall (fun v => variation v = original v) vs.
Proof.
  revert calls vs. induction cells as [|cell rest IH]; intros calls vs.
  - simpl. intros H. injection H as <- _. split; constructor.
  - rewrite process_loop_cons.
    destruct (process_cell respond cell [] calls) as [[us|e] c] eqn:Ec;
      [|discriminate].
    destruct (process_loop respond rest [] c) as [[ws|e] c2] eqn:Er;
      [|discriminate].
    intros H. injection H as <- <-.
    destruct (process_cell_one respond _ _ _ _ Ec) as [v [-> [_ [Hs Hvar]]]].
    destruct (IH _ _ Er) as [Hal Hall].
    assert (Hv : variation v = original v).
    { destruct (member_of_roles (role v)) as [r|].
      - exact (generate_result respond _ _ _ _ _ _ _ _ _ _ _ Hvar).
      - exact (proj1 Hvar). }
    simpl. split; constructor; try assumption.
    unfold cell_text. now rewrite Hv.
Qed.

Lemma reads_have_cell_type (cells : list value) (vs : list VariationRecord) :
  Forall2 reads cells vs -> forallb has_cell_type cells = true.
Proof.
  induction 1 as [|cell v cells vs [Ht _] _ IH]; [reflexivity|].
  simpl. unfold has_cell_type at 1. now rewrite Ht.
Qed.

(** A pass over blocks none of which is recognised returns without touching
    the service, whatever the service would do. *)
Lemma process_loop_passes_through (cells : list value)
  (calls : list CompletionRequest) :
  forallb is_block cells = true ->
  existsb cell_in_roles cells = false ->
  exists vs, process_loop respond cells [] calls = (Ok vs, calls).
Proof.
  induction cells as [|cell rest IH]; intros Hb Hnone; simpl in Hb, Hnone.
  - exists []. reflexivity.
  - apply andb_true_iff in Hb as [Hcell Hrest].
    apply orb_false_iff in Hnone as [Hcn Hrn].
    rewrite process_loop_cons.
    unfold is_block in Hcell. unfold cell_in_roles in Hcn. unfold process_cell.
    destruct (subscript cell (lit "cell_type")) as [t|e]; [|discriminate].
    destruct (bind (subscript cell (lit "source")) join) as [src|e];
      [|discriminate].
    rewrite (not_in_roles_member t Hcn).
    destruct (IH Hrest Hrn) as [ws ->]. eauto.
Qed.

End MoreProcessFacts.

(* ------------------------------------------------------------------ *)
(** ** Further properties of the pipeline *)
(* ------------------------------------------------------------------ *)

(** X1. A pass of [process_cells_with_function_call] that returns has sent
    exactly one request for each cell with a recognised role, in the order of
    the cells, each built from that cell's text and role, and none for the
    other cells. *)
Theorem process_sends_one_request_per_recognised_block (respond : Remote)
  (cells : list value) (calls calls' : list CompletionRequest)
  (variations : list VariationRecord) :
  process_cells_with_function_call respond (PyList cells) calls =
    (Ok variations, calls') ->
  calls' = calls ++ requests_of cells.
Proof.
  unfold process_cells_with_function_call. simpl iter. cbv beta iota.
  apply process_loop_requests.
Qed.

(** X2. A cell that has no [cell_type], or whose [source] is missing or not
    joinable, ends the pass with that exception: the records built so far are
    not returned and no cell after it is looked at, while the requests already
    sent stay sent. *)
Theorem process_aborts_on_unreadable_cell (respond : Remote)
  (pre post : list value) (cell : value)
  (calls calls1 : list CompletionRequest) (us : list VariationRecord)
  (e : exn) :
  process_cells_with_function_call respond (PyList pre) calls = (Ok us, calls1) ->
  subscript cell (lit "cell_type") = Raise e \/
  (exists t, subscript cell (lit "cell_type") = Ok t /\
             cell_text cell = Raise e) ->
  process_cells_with_function_call respond (PyList (pre ++ cell :: post)) calls =
    (Raise e, calls1).
Proof.
  unfold process_cells_with_function_call. simpl iter. cbv beta iota.
  intros Hpre Hbad.
  rewrite process_loop_app, Hpre, process_loop_cons. unfold process_cell.
  destruct Hbad as [Ht | [t [Ht Hs]]].
  - now rewrite Ht.
  - unfold cell_text in Hs. now rewrite Ht, Hs.
Qed.

(** X4. When the output path cannot be opened, [save_variations] does not
    fail: with a variation for every cell it returns normally, the notebook
    object is rebuilt in memory, and the file system is left as it was. *)
Theorem save_variations_swallows_io_error (variations : list VariationRecord)
  (path : str) (d : list (str * value)) (cells : list value) (w : World) :
  dict_get d (lit "cells") = Some (PyList cells) ->
  forallb has_cell_type cells = true ->
  length cells <= length variations ->
  existsb (str_eqb path) (unwritable w) = true ->
  save_variations variations path (PyDict d) w =
  (Ok tt,
   PyDict (dict_set d (lit "cells")
             (PyList (fst (save_loop variations 0 cells)))), w).
Proof.
  intros Hd Hall Hlen Hlocked.
  destruct (save_variations_matched variations path d cells w Hd Hall Hlen)
    as [w' Hs].
  pose proof (save_variations_world _ _ _ _ _ _ _ Hs) as Hw.
  simpl in Hw. unfold dump_to in Hw. rewrite Hlocked in Hw.
  now rewrite Hs, Hw.
Qed.

(** X6. Rebuilding is idempotent: calling [save_variations] again with the
    same variations on the notebook object it left gives the same result and
    leaves that object as it is. *)
Theorem rebuild_twice_is_rebuild_once (variations : list VariationRecord)
  (path : str) (d : list (str * value)) (cells : list value)
  (w w' w2 : World) (r : result unit) (nb' : value) :
  dict_get d (lit "cells") = Some (PyList cells) ->
  save_variations variations path (PyDict d) w = (r, nb', w') ->
  exists w2', save_variations variations path nb' w2 = (r, nb', w2').
Proof.
  intros Hd Hs.
  destruct (save_variations_leaves variations path d cells w w' r nb' Hd Hs)
    as [-> Hres].
  set (cells' := fst (save_loop variations 0 cells)) in *.
  assert (Hd' : dict_get (dict_set d (lit "cells") (PyList cells'))
                  (lit "cells") = Some (PyList cells')).
  { now rewrite dict_get_set, str_eqb_refl. }
  rewrite (save_variations_cells variations path _ cells' w2 Hd'). cbv zeta.
  unfold cells'. rewrite save_loop_again, dict_set_set.
  destruct (snd (save_loop variations 0 cells)) as [e|].
  - destruct Hres as [-> _]. eauto.
  - destruct Hres as [-> _]. destruct (dump_to w2 path _); eauto.
Qed.

(** X7. No variation reaches the document. Whenever the pass over the cells
    of a document returns, the variation of every record is the original
    text of its block; the rebuilding that follows returns normally and every
    cell of the rebuilt document has the text it had. (The fragments of a
    recognised cell are split again at line boundaries, so the list under
    [source] may differ.) *)
Theorem no_variation_reaches_the_document (respond : Remote)
  (d : list (str * value)) (cells : list value)
  (calls calls' : list CompletionRequest) (variations : list VariationRecord)
  (path : str) (w : World) :
  dict_get d (lit "cells") = Some (PyList cells) ->
  process_cells_with_function_call respond (PyList cells) calls =
    (Ok variations, calls') ->
  Forall (fun v => variation v = original v) variations /\
  exists nb' w' cells',
    save_variations variations path (PyDict d) w = (Ok tt, nb', w') /\
    subscript nb' (lit "cells") = Ok (PyList cells') /\
    map cell_text cells' = map cell_text cells.
Proof.
  intros Hd Hp.
  unfold process_cells_with_function_call in Hp. simpl iter in Hp.
  cbv beta iota in Hp.
  destruct (process_loop_keeps_text respond _ _ _ _ Hp) as [Hal Hsame].
  split; [exact Hsame|].
  pose proof (reads_have_cell_type _ _ (process_loop_reads respond _ _ _ _ Hp))
    as Hall.
  destruct (save_loop_same_text variations cells 0 Hall Hal) as [Hstop Htext].
  pose proof (save_variations_cells variations path d cells w Hd) as Hs.
  cbv zeta in Hs. rewrite Hstop in Hs.
  eexists. eexists. exists (fst (save_loop variations 0 cells)).
  split; [exact Hs|]. split; [|exact Htext].
  unfold subscript. now rewrite dict_get_set, str_eqb_refl.
Qed.

(** X8. Whatever its outcome, [main_with_function_call] changes no file
    other than the output path, and leaves the set of unwritable paths as it
    was; in particular the input notebook still loads as before. *)
Theorem main_writes_only_output (respond : Remote) (w w' : World)
  (calls calls' : list CompletionRequest) (r : result unit) :
  main_with_function_call respond w calls = (r, w', calls') ->
  unwritable w' = unwritable w /\
  (forall p, p <> output_path ->
     lookup_file (files w') p = lookup_file (files w) p) /\
  load_notebook input_path w' = load_notebook input_path w.
Proof.
  unfold main_with_function_call.
  assert (Hsame : unwritable w = unwritable w /\
                  (forall p, p <> output_path ->
                     lookup_file (files w) p = lookup_file (files w) p) /\
                  load_notebook input_path w = load_notebook input_path w)
    by (repeat split).
  destruct (extract_cells (load_notebook input_path w)) as [cells|e];
    [|intros H; injection H as <- <- <-; exact Hsame].
  destruct (process_cells_with_function_call respond cells calls)
    as [[vs|e] c];
    [|intros H; injection H as <- <- <-; exact Hsame].
  destruct (save_variations vs output_path (load_notebook input_path w) w)
    as [[r0 nb] w0] eqn:Hs.
  intros H. injection H as <- <- <-.
  pose proof (save_variations_world _ _ _ _ _ _ _ Hs) as Hw.
  destruct r0 as [u|e]; [|subst w0; exact Hsame].
  subst w0. destruct (dump_to_frame w output_path nb) as [Hu Hl].
  split; [exact Hu|]. split; [exact Hl|].
  unfold load_notebook. rewrite Hl; [reflexivity | discriminate].
Qed.

(** X9. When the input path holds a document with a list of blocks, the
    service answers every call and the output path can be opened and
    written, [main_with_function_call] returns normally; the output path then
    holds the encoding of a document with as many cells and the same
    [cell_type] at each index; one request was sent per recognised cell; the
    input path holds what it held. *)
Theorem main_rebuilds_well_formed_notebook (respond : Remote) (w : World)
  (calls : list CompletionRequest) (d : list (str * value))
  (cells : list value) :
  lookup_file (files w) input_path = Some (Encoded (PyDict d)) ->
  dict_get d (lit "cells") = Some (PyList cells) ->
  always_answers respond ->
  forallb is_block cells = true ->
  existsb (str_eqb output_path) (unwritable w) = false ->
  existsb (str_eqb output_path) (faulty w) = false ->
  exists w' nb' cells',
    main_with_function_call respond w calls =
      (Ok tt, w', calls ++ requests_of cells) /\
    lookup_file (files w') output_path = Some (Encoded nb') /\
    subscript nb' (lit "cells") = Ok (PyList cells') /\
    length cells' = length cells /\
    map (fun c => subscript c (lit "cell_type")) cells' =
      map (fun c => subscript c (lit "cell_type")) cells /\
    lookup_file (files w') input_path = Some (Encoded (PyDict d)).
Proof.
  intros Hin Hd Hc Hb Hfree Hsound.
  assert (Hload : load_notebook input_path w = PyDict d).
  { unfold load_notebook. now rewrite Hin. }
  destruct (process_blocks_returns respond cells calls Hc Hb)
    as [vs [c [Hp Hr]]].
  pose proof (Forall2_length Hr) as Hlen.
  assert (Hlog : c = calls ++ requests_of cells).
  { unfold process_cells_with_function_call in Hp. simpl iter in Hp.
    cbv beta iota in Hp. exact (process_loop_requests respond _ _ _ _ Hp). }
  destruct (save_variations_matched vs output_path d cells w Hd
              (blocks_have_cell_type cells Hb)) as [w' Hs]; [lia|].
  pose proof (save_variations_world _ _ _ _ _ _ _ Hs) as Hw. simpl in Hw.
  rewrite (dump_to_written w output_path _ Hfree Hsound) in Hw. simpl in Hw.
  exists w',
    (PyDict (dict_set d (lit "cells") (PyList (fst (save_loop vs 0 cells))))),
    (fst (save_loop vs 0 cells)).
  split.
  { unfold main_with_function_call. rewrite Hload.
    unfold extract_cells. rewrite (truthy_dict_get _ _ _ Hd).
    unfold subscript at 1. rewrite Hd, Hp, Hs. now rewrite Hlog. }
  split.
  { subst w'. simpl. now rewrite lookup_store_file, str_eqb_refl. }
  split.
  { unfold subscript. now rewrite dict_get_set, str_eqb_refl. }
  split; [apply save_loop_length|].
  split; [apply save_loop_other_keys; discriminate|].
  subst w'. simpl. rewrite lookup_store_file. simpl. exact Hin.
Qed.

(** X10. When the input loads to a falsy value (a missing or undecodable
    file gives [None]; an empty object, list or string is falsy too),
    [main_with_function_call] always raises, [TypeError] or [KeyError], sends
    no request and writes nothing. *)
Theorem main_fails_on_falsy_document (respond : Remote) (w : World)
  (calls : list CompletionRequest) :
  truthy (load_notebook input_path w) = false ->
  exists e,
    main_with_function_call respond w calls = (Raise e, w, calls) /\
    (e = TypeError \/ e = KeyError).
Proof.
  intros Hf. unfold main_with_function_call, extract_cells. rewrite Hf.
  destruct (load_notebook input_path w) as [|b|z|m e|s|l|d];
    simpl in *; eauto.
  destruct d; [simpl; eauto | discriminate].
Qed.

(** X11. Cells are rewritten in place as the loop goes: on a document whose
    cells all carry a [cell_type], a recognised cell whose index has a
    variation holds the lines of that variation after the call, also when the
    call then raises [IndexError] at a later cell and writes nothing. *)
Theorem index_error_leaves_earlier_cells_rewritten
  (variations : list VariationRecord) (path : str) (d : list (str * value))
  (cells : list value) (w w' : World) (r : result unit) (nb' : value)
  (j : nat) (cell : value) (v : VariationRecord) :
  dict_get d (lit "cells") = Some (PyList cells) ->
  forallb has_cell_type cells = true ->
  save_variations variations path (PyDict d) w = (r, nb', w') ->
  nth_error cells j = Some cell ->
  cell_in_roles cell = true ->
  nth_error variations j = Some v ->
  exists cells' cell',
    subscript nb' (lit "cells") = Ok (PyList cells') /\
    nth_error cells' j = Some cell' /\
    subscript cell' (lit "source") =
      Ok (PyList (map PyStr (splitlines_keepends (variation v)))).
Proof.
  intros Hd Hall Hs Hj Hrole Hv.
  destruct (save_variations_leaves variations path d cells w w' r nb' Hd Hs)
    as [-> _].
  destruct (save_loop_reached variations cells 0 j cell v Hall Hj Hrole Hv)
    as [cell' [Hc' Hsrc]].
  exists (fst (save_loop variations 0 cells)), cell'.
  split; [|split; assumption].
  unfold subscript. now rewrite dict_get_set, str_eqb_refl.
Qed.

(** X12. The rebuilt document is again an input of the pipeline: when every
    cell of the document is a block, every cell the call leaves is a block,
    whatever the variations and the outcome. *)
Theorem rebuilt_cells_stay_blocks (variations : list VariationRecord)
  (path : str) (d : list (str * value)) (cells : list value)
  (w w' : World) (r : result unit) (nb' : value) :
  dict_get d (lit "cells") = Some (PyList cells) ->
  forallb is_block cells = true ->
  save_variations variations path (PyDict d) w = (r, nb', w') ->
  exists cells',
    extract_cells nb' = Ok (PyList cells') /\
    forallb is_block cells' = true.
Proof.
  intros Hd Hb Hs.
  destruct (save_variations_leaves variations path d cells w w' r nb' Hd Hs)
    as [-> _].
  exists (fst (save_loop variations 0 cells)). split.
  - unfold extract_cells. rewrite truthy_dict_set.
    unfold subscript. now rewrite dict_get_set, str_eqb_refl.
  - now apply save_loop_blocks.
Qed.

(** X13. A document none of whose blocks has a recognised role goes through
    untouched: processing returns without sending any request, whatever the
    service would do, and rebuilding leaves the notebook object exactly as it
    was. *)
Theorem unrecognised_notebook_is_left_unchanged (respond : Remote)
  (d : list (str * value)) (cells : list value)
  (calls : list CompletionRequest) (path : str) (w : World) :
  dict_get d (lit "cells") = Some (PyList cells) ->
  forallb is_block cells = true ->
  existsb cell_in_roles cells = false ->
  exists variations w',
    process_cells_with_function_call respond (PyList cells) calls =
      (Ok variations, calls) /\
    save_variations variations path (PyDict d) w = (Ok tt, PyDict d, w').
Proof.
  intros Hd Hb Hnone.
  destruct (process_loop_passes_through respond cells calls Hb Hnone)
    as [vs Hp].
  pose proof (save_variations_cells vs path d cells w Hd) as Hs.
  cbv zeta in Hs.
  rewrite (save_loop_nothing_recognised vs cells 0
             (blocks_have_cell_type cells Hb) Hnone) in Hs.
  simpl in Hs. rewrite (dict_set_same _ _ _ Hd) in Hs.
  exists vs. eauto.
Qed.

(* ------------------------------------------------------------------ *)
(** ** The further properties at work on the sample notebook *)
(* ------------------------------------------------------------------ *)

Lemma process_sends_one_request_per_recognised_block_witness :
  process_cells_with_function_call Sample.scripted (PyList Sample.cells) [] =
    (Ok Sample.records, Sample.log) /\
  Sample.log = [] ++ requests_of Sample.cells.
Proof.
  split; [reflexivity|].
  exact (process_sends_one_request_per_recognised_block Sample.scripted
           Sample.cells [] Sample.log Sample.records eq_refl).
Defined.

Lemma process_aborts_on_unreadable_cell_witness :
  process_cells_with_function_call Sample.scripted
    (PyList [Sample.code_cell]) [] =
    (Ok [Sample.record "code" "print(1)" "print(1)"], [request_for (lit "print(1)") (lit "code")]) /\
  subscript Sample.untyped_cell (lit "cell_type") = Raise KeyError /\
  process_cells_with_function_call Sample.scripted
    (PyList ([Sample.code_cell] ++ Sample.untyped_cell
             :: [Sample.markdown_cell])) [] =
    (Raise KeyError, [request_for (lit "print(1)") (lit "code")]).
Proof.
  split; [reflexivity|]. split; [reflexivity|].
  exact (process_aborts_on_unreadable_cell Sample.scripted
           [Sample.code_cell] [Sample.markdown_cell] Sample.untyped_cell
           [] [request_for (lit "print(1)") (lit "code")] [Sample.record "code" "print(1)" "print(1)"]
           KeyError eq_refl (or_introl eq_refl)).
Defined.

Lemma save_variations_swallows_io_error_witness :
  dict_get (Sample.notebook_of Sample.cells) (lit "cells") =
    Some (PyList Sample.cells) /\
  forallb has_cell_type Sample.cells = true /\
  length Sample.cells <= length Sample.records /\
  existsb (str_eqb output_path) (unwritable Sample.locked_world) = true /\
  save_variations Sample.records output_path Sample.notebook
    Sample.locked_world =
  (Ok tt,
   PyDict (dict_set (Sample.notebook_of Sample.cells) (lit "cells")
             (PyList (fst (save_loop Sample.records 0 Sample.cells)))),
   Sample.locked_world).
Proof.
  split; [reflexivity|]. split; [reflexivity|].
  split; [vm_compute; lia|]. split; [reflexivity|].
  apply (save_variations_swallows_io_error Sample.records output_path
           (Sample.notebook_of Sample.cells) Sample.cells Sample.locked_world);
    reflexivity.
Defined.

Lemma rebuild_twice_is_rebuild_once_witness :
  dict_get (Sample.notebook_of Sample.cells) (lit "cells") =
    Some (PyList Sample.cells) /\
  save_variations Sample.records output_path Sample.notebook
    Sample.empty_world = (Ok tt, Sample.rebuilt, Sample.written) /\
  exists w2',
    save_variations Sample.records output_path Sample.rebuilt Sample.written =
    (Ok tt, Sample.rebuilt, w2').
Proof.
  split; [reflexivity|]. split; [reflexivity|].
  exact (rebuild_twice_is_rebuild_once Sample.records output_path
           (Sample.notebook_of Sample.cells) Sample.cells Sample.empty_world
           Sample.written Sample.written (Ok tt) Sample.rebuilt
           eq_refl eq_refl).
Defined.

Lemma no_variation_reaches_the_document_witness :
  dict_get (Sample.notebook_of Sample.cells) (lit "cells") =
    Some (PyList Sample.cells) /\
  process_cells_with_function_call Sample.scripted (PyList Sample.cells) [] =
    (Ok Sample.records, Sample.log) /\
  Forall (fun v => variation v = original v) Sample.records /\
  exists nb' w' cells',
    save_variations Sample.records output_path
      (PyDict (Sample.notebook_of Sample.cells)) Sample.empty_world =
      (Ok tt, nb', w') /\
    subscript nb' (lit "cells") = Ok (PyList cells') /\
    map cell_text cells' = map cell_text Sample.cells.
Proof.
  split; [reflexivity|]. split; [reflexivity|].
  exact (no_variation_reaches_the_document Sample.scripted
           (Sample.notebook_of Sample.cells) Sample.cells [] Sample.log
           Sample.records output_path Sample.empty_world eq_refl eq_refl).
Defined.

Lemma main_writes_only_output_witness :
  main_with_function_call Sample.scripted
    (Sample.world_with Sample.notebook) [] =
    (fst (fst Sample.ran), snd (fst Sample.ran), snd Sample.ran) /\
  unwritable (snd (fst Sample.ran)) =
    unwritable (Sample.world_with Sample.notebook) /\
  (forall p, p <> output_path ->
     lookup_file (files (snd (fst Sample.ran))) p =
     lookup_file (files (Sample.world_with Sample.notebook)) p) /\
  load_notebook input_path (snd (fst Sample.ran)) =
    load_notebook input_path (Sample.world_with Sample.notebook).
Proof.
  split; [reflexivity|].
  exact (main_writes_only_output Sample.scripted
           (Sample.world_with Sample.notebook) (snd (fst Sample.ran)) []
           (snd Sample.ran) (fst (fst Sample.ran)) eq_refl).
Defined.

Lemma main_rebuilds_well_formed_notebook_witness :
  lookup_file (files (Sample.world_with Sample.notebook)) input_path =
    Some (Encoded (PyDict (Sample.notebook_of Sample.cells))) /\
  dict_get (Sample.notebook_of Sample.cells) (lit "cells") =
    Some (PyList Sample.cells) /\
  always_answers Sample.scripted /\
  forallb is_block Sample.cells = true /\
  existsb (str_eqb output_path)
    (unwritable (Sample.world_with Sample.notebook)) = false /\
  existsb (str_eqb output_path)
    (faulty (Sample.world_with Sample.notebook)) = false /\
  exists w' nb' cells',
    main_with_function_call Sample.scripted
      (Sample.world_with Sample.notebook) [] =
      (Ok tt, w', [] ++ requests_of Sample.cells) /\
    lookup_file (files w') output_path = Some (Encoded nb') /\
    subscript nb' (lit "cells") = Ok (PyList cells') /\
    length cells' = length Sample.cells /\
    map (fun c => subscript c (lit "cell_type")) cells' =
      map (fun c => subscript c (lit "cell_type")) Sample.cells /\
    lookup_file (files w') input_path =
      Some (Encoded (PyDict (Sample.notebook_of Sample.cells))).
Proof.
  split; [reflexivity|]. split; [reflexivity|].
  split; [exact scripted_answers|]. split; [reflexivity|].
  split; [reflexivity|]. split; [reflexivity|].
  exact (main_rebuilds_well_formed_notebook Sample.scripted
           (Sample.world_with Sample.notebook) []
           (Sample.notebook_of Sample.cells) Sample.cells
           eq_refl eq_refl scripted_answers eq_refl eq_refl eq_refl).
Defined.

Lemma main_fails_on_falsy_document_witness :
  truthy (load_notebook input_path Sample.empty_world) = false /\
  exists e,
    main_with_function_call Sample.failing Sample.empty_world [] =
      (Raise e, Sample.empty_world, []) /\
    (e = TypeError \/ e = KeyError).
Proof.
  split; [reflexivity|].
  exact (main_fails_on_falsy_document Sample.failing Sample.empty_world []
           eq_refl).
Defined.

Lemma index_error_leaves_earlier_cells_rewritten_witness :
  dict_get (Sample.notebook_of Sample.cells) (lit "cells") =
    Some (PyList Sample.cells) /\
  forallb has_cell_type Sample.cells = true /\
  save_variations Sample.one_record output_path Sample.notebook
    Sample.empty_world =
    (Raise IndexError, Sample.partly_rebuilt, Sample.empty_world) /\
  nth_error Sample.cells 0 = Some Sample.code_cell /\
  cell_in_roles Sample.code_cell = true /\
  nth_error Sample.one_record 0 =
    Some (Sample.record "code" "print(1)" "print(2)") /\
  exists cells' cell',
    subscript Sample.partly_rebuilt (lit "cells") = Ok (PyList cells') /\
    nth_error cells' 0 = Some cell' /\
    subscript cell' (lit "source") =
      Ok (PyList (map PyStr
            (splitlines_keepends
               (variation (Sample.record "code" "print(1)" "print(2)"))))).
Proof.
  repeat (split; [reflexivity|]).
  exact (index_error_leaves_earlier_cells_rewritten Sample.one_record
           output_path (Sample.notebook_of Sample.cells) Sample.cells
           Sample.empty_world Sample.empty_world (Raise IndexError)
           Sample.partly_rebuilt 0 Sample.code_cell
           (Sample.record "code" "print(1)" "print(2)")
           eq_refl eq_refl eq_refl eq_refl eq_refl eq_refl).
Defined.

Lemma rebuilt_cells_stay_blocks_witness :
  dict_get (Sample.notebook_of Sample.cells) (lit "cells") =
    Some (PyList Sample.cells) /\
  forallb is_block Sample.cells = true /\
  save_variations Sample.records output_path Sample.notebook
    Sample.empty_world = (Ok tt, Sample.rebuilt, Sample.written) /\
  exists cells',
    extract_cells Sample.rebuilt = Ok (PyList cells') /\
    forallb is_block cells' = true.
Proof.
  repeat (split; [reflexivity|]).
  exact (rebuilt_cells_stay_blocks Sample.records output_path
           (Sample.notebook_of Sample.cells) Sample.cells Sample.empty_world
           Sample.written (Ok tt) Sample.rebuilt eq_refl eq_refl eq_refl).
Defined.

Lemma unrecognised_notebook_is_left_unchanged_witness :
  dict_get (Sample.notebook_of [Sample.raw_cell]) (lit "cells") =
    Some (PyList [Sample.raw_cell]) /\
  forallb is_block [Sample.raw_cell] = true /\
  existsb cell_in_roles [Sample.raw_cell] = false /\
  exists variations w',
    process_cells_with_function_call Sample.interrupted
      (PyList [Sample.raw_cell]) [] = (Ok variations, []) /\
    save_variations variations output_path
      (PyDict (Sample.notebook_of [Sample.raw_cell])) Sample.empty_world =
      (Ok tt, PyDict (Sample.notebook_of [Sample.raw_cell]), w').
Proof.
  repeat (split; [reflexivity|]).
  exact (unrecognised_notebook_is_left_unchanged Sample.interrupted
           (Sample.notebook_of [Sample.raw_cell]) [Sample.raw_cell] []
           output_path Sample.empty_world eq_refl eq_refl eq_refl).
Defined.
